(** * EventStore: snapshots of an entity rebuilt by folding its events

    Shallow embedding of the [EventStore] class of the framework core
    (fetchEntitySnapshot, calculateAndStoreEntitySnapshot, entityReducer,
    reducerForEvent and their private helpers) and the properties of its
    two public operations.

    The class is asynchronous JavaScript over an external provider, a
    logger and the wall clock.  Each method becomes a computation of the
    monad [M]: a function from the world (provider state, the provider
    calls made so far, the logger's output, the number of clock readings)
    to a completion (normal value or thrown error) and the new world.
    [await] of a rejected promise is a throw. *)

From Stdlib Require Import ZArith.
From stdpp Require Import base option list gmap strings.

Open Scope Z_scope.
Open Scope string_scope.
Open Scope list_scope.

(** ** Values and errors *)

(** The payload of an envelope and the entity a reducer returns are
    opaque to the store. *)
#[warnings="-register-all"] Inductive JsValue :=
| JNull
| JUndefined
| JBool (b : bool)
| JNum (n : Z)
| JStr (s : string)
| JObj (fields : list (string * JsValue)).

(** What a [throw] carries.  [InvalidParameterError] is the class of the
    framework types; [Error] and [TypeError] are the built-in ones;
    anything else raised by application or provider code is [Thrown]. *)
Inductive JsError :=
| InvalidParameterError (message : string)
| Error (message : string)
| TypeError (message : string)
| Thrown (v : JsValue).

Inductive Completion (A : Type) :=
| Normal (a : A)
| Throw (e : JsError).
Arguments Normal {A} a.
Arguments Throw {A} e.

(** ** Envelopes *)

Definition UUID := string.

(** A [Date] is represented by its [toISOString()] rendering; the
    timestamps of envelopes are such strings already. *)
Definition Date := string.

Inductive EnvelopeKind := KEvent | KSnapshot.

Record EventEnvelope := {
  version : Z;
  kind : EnvelopeKind;
  requestID : UUID;
  entityID : UUID;
  entityTypeName : string;
  typeName : string;
  value : JsValue;
  createdAt : string;
  snapshottedEventCreatedAt : option string
}.

(** [new Date(0).toISOString()], the Unix epoch. *)
Definition originOfTime : string := "1970-01-01T00:00:00.000Z".

(** ** Configuration: the reducer registry *)

(** A reducer is called as [reducer(eventValue, snapshotValue)]. *)
Definition Reducer := JsValue -> JsValue -> Completion JsValue.

(** A member of a class, as a property read sees it: a function (called
    later without a receiver), some other value, or an accessor whose
    getter throws. *)
Inductive Property :=
| PFunction (f : Reducer)
| PData (v : JsValue)
| PThrowingGetter (e : JsError).

(** A class constructor as [(cls as any)[key]] sees it: its [name], the
    number of parameters of its constructor, the static members it
    declares, and what the rest of its prototype chain answers (the
    classes it extends, then [Function.prototype] and
    [Object.prototype]). *)
Record AnyClass := {
  name : string;
  arity : Z;
  statics : gmap string Property;
  inherited : gmap string Property
}.

(** An entry of the registry.  [class] is [None] when the entry has no
    holder class ([undefined]). *)
Record ReducerMetadata := {
  class : option AnyClass;
  methodName : string
}.

(** What a property read yields: a callable or some other value. *)
Inductive JsRef :=
| RFunction (f : Reducer)
| RValue (v : JsValue).

(** The part of [BoosterConfig] the store reads: the registry (the
    entries put into the plain object [config.reducers]), and
    [currentVersionFor], taken here as a function that returns. *)
Record BoosterConfig := {
  reducers : gmap string ReducerMetadata;
  currentVersionFor : string -> Z
}.

(** The names every plain object answers to through [Object.prototype]. *)
Definition objectPrototypeKeys : list string :=
  ["constructor"; "__defineGetter__"; "__defineSetter__"; "hasOwnProperty";
   "__lookupGetter__"; "__lookupSetter__"; "isPrototypeOf"; "propertyIsEnumerable";
   "toString"; "valueOf"; "__proto__"; "toLocaleString"].

Definition isObjectPrototypeKey (key : string) : bool :=
  existsb (String.eqb key) objectPrototypeKeys.

(** What a member inherited from [Object.prototype] looks like when it is
    read as a registry entry: it has no [class], and its [methodName] is
    [undefined], the key "undefined" of a property read. *)
Definition inheritedMember : ReducerMetadata :=
  {| class := None; methodName := "undefined" |}.

(** [config.reducers[eventName]]: the entry registered under the name;
    failing that, the member the registry object inherits under it;
    failing that, [undefined] ([None]). *)
Definition readReducers (config : BoosterConfig) (eventName : string)
  : option ReducerMetadata :=
  match reducers config !! eventName with
  | Some md => Some md
  | None => if isObjectPrototypeKey eventName then Some inheritedMember else None
  end.

(** The properties a class constructor has of its own besides its
    declared statics. *)
Definition ownFunctionProperties (cls : AnyClass) : gmap string Property :=
  {[ "name" := PData (JStr (name cls));
     "length" := PData (JNum (arity cls));
     "prototype" := PData (JObj []) ]}.

(** The member a read of [cls[key]] finds, along the prototype chain. *)
Definition lookupMember (cls : AnyClass) (key : string) : option Property :=
  match statics cls !! key with
  | Some p => Some p
  | None =>
      match ownFunctionProperties cls !! key with
      | Some p => Some p
      | None => inherited cls !! key
      end
  end.

(** ** The provider *)

(** [config.provider.events], over a provider state [P].  The [config]
    and [logger] arguments the store hands over are left out. *)
Record ProviderLibrary (P : Type) := {
  latestEntitySnapshot :
    string -> UUID -> option Date -> P -> Completion (option EventEnvelope) * P;
  forEntitySince :
    string -> UUID -> string -> P -> Completion (list EventEnvelope) * P;
  store : list EventEnvelope -> P -> Completion unit * P
}.
Arguments latestEntitySnapshot {P} _ _ _ _ _.
Arguments forEntitySince {P} _ _ _ _ _.
Arguments store {P} _ _ _.

Inductive ProviderCall :=
| CallLatestEntitySnapshot (entityName : string) (entityID : UUID) (at_ : option Date)
| CallForEntitySince (entityTypeName : string) (entityID : UUID) (timestamp : string)
| CallStore (envelopes : list EventEnvelope).

Definition isStore (c : ProviderCall) : bool :=
  match c with CallStore _ => true | _ => false end.

(** ** The logger *)

Inductive LogArg :=
| AStr (s : string)
| AEnvelope (e : option EventEnvelope)
| AEnvelopes (es : list EventEnvelope)
| AError (e : JsError).

Inductive LogEntry :=
| LDebug (args : list LogArg)
| LError (args : list LogArg).

(** ** The world and the monad *)

Record World (P : Type) := mkWorld {
  w_provider : P;
  w_calls : list ProviderCall;
  w_log : list LogEntry;
  w_clock : nat
}.
Arguments mkWorld {P} _ _ _ _.
Arguments w_provider {P} _.
Arguments w_calls {P} _.
Arguments w_log {P} _.
Arguments w_clock {P} _.

Definition M (P A : Type) : Type := World P -> Completion A * World P.

Definition ret {P A} (a : A) : M P A := fun w => (Normal a, w).

Definition throw {P A} (e : JsError) : M P A := fun w => (Throw e, w).

Definition bind {P A B} (m : M P A) (k : A -> M P B) : M P B :=
  fun w =>
    match m w with
    | (Normal a, w') => k a w'
    | (Throw e, w') => (Throw e, w')
    end.

(** [try { body } catch (e) { handler }] *)
Definition tryCatch {P A} (body : M P A) (handler : JsError -> M P A) : M P A :=
  fun w =>
    match body w with
    | (Normal a, w') => (Normal a, w')
    | (Throw e, w') => handler e w'
    end.

Declare Scope js_scope.
Delimit Scope js_scope with js.
Notation "x <- m ;; k" := (bind m (fun x => k))
  (at level 100, m at next level, right associativity) : js_scope.
Notation "m ;;; k" := (bind m (fun _ => k))
  (at level 100, right associativity) : js_scope.
Open Scope js_scope.

Definition debug {P} (args : list LogArg) : M P unit :=
  fun w => (Normal tt,
            mkWorld (w_provider w) (w_calls w) (w_log w ++ [LDebug args]) (w_clock w)).

Definition error {P} (args : list LogArg) : M P unit :=
  fun w => (Normal tt,
            mkWorld (w_provider w) (w_calls w) (w_log w ++ [LError args]) (w_clock w)).

(** [Array.prototype.reduce(callback, initialValue)] with a callback that
    may throw: the first throw leaves the loop. *)
Fixpoint reduce {P A B} (callback : B -> A -> M P B) (l : list A) (acc : B) : M P B :=
  match l with
  | [] => ret acc
  | x :: rest => acc' <- callback acc x ;; reduce callback rest acc'
  end.

(** ** The EventStore class *)

(** The one-character string holding a double quote. *)
Definition dquote : string :=
  String (Ascii.Ascii false true false false false true false false) EmptyString.

Section EventStore.
Context {P : Type}.
(** [this.config], [this.provider] and the wall clock: [now n] is the
    [n]-th value [new Date().toISOString()] yields. *)
Variable config : BoosterConfig.
Variable provider : ProviderLibrary P.
Variable now : nat -> string.

Definition newDateISOString : M P string :=
  fun w => (Normal (now (w_clock w)),
            mkWorld (w_provider w) (w_calls w) (w_log w) (S (w_clock w))).

(** One call of a provider method: the call is recorded and the
    provider moves to its next state, also when the call fails. *)
Definition callProvider {A} (c : ProviderCall) (run : P -> Completion A * P) : M P A :=
  fun w =>
    let (r, p') := run (w_provider w) in
    (r, mkWorld p' (w_calls w ++ [c]) (w_log w) (w_clock w)).

(** [(cls as any)[key]]; reading a property of [undefined] throws. *)
Definition getProperty (cls : option AnyClass) (key : string) : M P JsRef :=
  match cls with
  | None =>
      throw (TypeError ("Cannot read properties of undefined (reading '" +:+ key +:+ "')"))
  | Some c =>
      match lookupMember c key with
      | Some (PFunction f) => ret (RFunction f)
      | Some (PData v) => ret (RValue v)
      | Some (PThrowingGetter e) => throw e
      | None => ret (RValue JUndefined)
      end
  end.

(** [cls.name] *)
Definition getName (cls : option AnyClass) : M P string :=
  match cls with
  | None => throw (TypeError "Cannot read properties of undefined (reading 'name')")
  | Some c => ret (name c)
  end.

(** [callee(eventValue, snapshotValue)]; the message of the TypeError
    is the engine's. *)
Definition call (callee : JsRef) (eventValue snapshotValue : JsValue) : M P JsValue :=
  match callee with
  | RFunction f =>
      match f eventValue snapshotValue with
      | Normal v => ret v
      | Throw e => throw e
      end
  | RValue _ => throw (TypeError "this.reducerForEvent(...) is not a function")
  end.

Definition reducerForEvent (eventName : string) : M P JsRef :=
  match readReducers config eventName with
  | None => throw (InvalidParameterError ("No reducer registered for event " +:+ eventName))
  | Some reducerMetadata =>
      tryCatch
        (reducer <- getProperty (class reducerMetadata) (methodName reducerMetadata) ;;
         className <- getName (class reducerMetadata) ;;
         debug [AStr ("[EventStore#reducerForEvent] Found reducer for event " +:+ eventName
                      +:+ ": " +:+ dquote +:+ className +:+ "."
                      +:+ methodName reducerMetadata +:+ dquote)] ;;;
         ret reducer)
        (fun _ =>
           className <- getName (class reducerMetadata) ;;
           throw (Error ("Couldn't load the Entity class " +:+ className)))
  end.

Definition entityReducer (latestSnapshot : option EventEnvelope)
    (eventEnvelope : EventEnvelope) : M P EventEnvelope :=
  tryCatch
    (debug [AStr "[EventStore#entityReducer]: Calling reducer with event: ";
            AEnvelope (Some eventEnvelope);
            AStr " and entity snapshot ";
            AEnvelope latestSnapshot] ;;;
     let snapshotValue :=
       match latestSnapshot with Some s => value s | None => JNull end in
     reducer <- reducerForEvent (typeName eventEnvelope) ;;
     newEntity <- call reducer (value eventEnvelope) snapshotValue ;;
     let version_ := currentVersionFor config (entityTypeName eventEnvelope) in
     createdAt_ <- newDateISOString ;;
     let newSnapshot :=
       {| version := version_;
          kind := KSnapshot;
          requestID := requestID eventEnvelope;
          entityID := entityID eventEnvelope;
          entityTypeName := entityTypeName eventEnvelope;
          typeName := entityTypeName eventEnvelope;
          value := newEntity;
          createdAt := createdAt_;
          snapshottedEventCreatedAt := Some (createdAt eventEnvelope) |} in
     debug [AStr "[EventStore#entityReducer]: Reducer result: ";
            AEnvelope (Some newSnapshot)] ;;;
     ret newSnapshot)
    (fun e => error [AStr "Error when calling reducer"; AError e] ;;; throw e).

(** [this.entityReducer.bind(this)] as the callback of [reduce]: the
    accumulator is [EventEnvelope | null]. *)
Definition entityReducerCallback (acc : option EventEnvelope) (e : EventEnvelope)
  : M P (option EventEnvelope) :=
  s <- entityReducer acc e ;; ret (Some s).

Definition storeSnapshot (snapshot : EventEnvelope) : M P unit :=
  debug [AStr "[EventStore#storeSnapshot] Storing snapshot in the event store:";
         AEnvelope (Some snapshot)] ;;;
  callProvider (CallStore [snapshot]) (store provider [snapshot]).

Definition loadSnapshot (entityName : string) (entityID : UUID) (at_ : option Date)
  : M P (option EventEnvelope) :=
  debug [AStr ("[EventStore#loadLatestSnapshot] Loading latest snapshot for entity "
               +:+ entityName +:+ " and ID " +:+ entityID)] ;;;
  callProvider (CallLatestEntitySnapshot entityName entityID at_)
               (latestEntitySnapshot provider entityName entityID at_).

(** [this.loadLatestSnapshot(entityName, entityID)], as
    [calculateAndStoreEntitySnapshot] calls it.  The class declares no
    member of that name (the one it has is [loadSnapshot], whose log line
    still says loadLatestSnapshot) and extends nothing: the read yields
    [undefined] and the call throws. *)
Definition loadLatestSnapshot (entityName : string) (entityID : UUID)
  : M P (option EventEnvelope) :=
  throw (TypeError "this.loadLatestSnapshot is not a function").

Definition loadEventStreamSince (entityTypeName : string) (entityID : UUID)
    (timestamp : string) : M P (list EventEnvelope) :=
  debug [AStr ("[EventStore#loadEventStreamSince] Loading list of pending events for entity "
               +:+ entityTypeName +:+ " with ID " +:+ entityID +:+ " since " +:+ timestamp)] ;;;
  callProvider (CallForEntitySince entityTypeName entityID timestamp)
               (forEntitySince provider entityTypeName entityID timestamp).

(** [snapshotEnvelope?.snapshottedEventCreatedAt ?? originOfTime] *)
Definition lastVisitedTime (snapshotEnvelope : option EventEnvelope) : string :=
  match snapshotEnvelope with
  | Some s =>
      match snapshottedEventCreatedAt s with
      | Some t => t
      | None => originOfTime
      end
  | None => originOfTime
  end.

Definition fetchEntitySnapshot (entityName : string) (entityID : UUID)
    (at_ : option Date) : M P (option EventEnvelope) :=
  debug [AStr ("[EventStore#fetchEntitySnapshot] Fetching snapshot for entity "
               +:+ entityName +:+ " with ID " +:+ entityID)] ;;;
  snapshotEnvelope <- loadSnapshot entityName entityID at_ ;;
  let lastVisitedTime_ := lastVisitedTime snapshotEnvelope in
  pendingEvents <- loadEventStreamSince entityName entityID lastVisitedTime_ ;;
  if (length pendingEvents <=? 0)%nat then
    ret snapshotEnvelope
  else
    debug [AStr ("[EventStore#fetchEntitySnapshot] Looking for the reducer for entity "
                 +:+ entityName +:+ " with ID " +:+ entityID)] ;;;
    newEntitySnapshot <- reduce entityReducerCallback pendingEvents snapshotEnvelope ;;
    debug [AStr ("[EventStore#fetchEntitySnapshot] Reduced new snapshot for entity "
                 +:+ entityName +:+ " with ID " +:+ entityID +:+ ": ");
           AEnvelope newEntitySnapshot] ;;;
    ret newEntitySnapshot.

Definition calculateAndStoreEntitySnapshot (entityName : string) (entityID : UUID)
    (pendingEnvelopes : list EventEnvelope) : M P (option EventEnvelope) :=
  debug [AStr "[EventStore#calculateAndStoreEntitySnapshot] Processing events: ";
         AEnvelopes pendingEnvelopes] ;;;
  debug [AStr ("[EventStore#calculateAndStoreEntitySnapshot] Fetching snapshot for entity "
               +:+ entityName +:+ " with ID " +:+ entityID)] ;;;
  latestSnapshotEnvelope <- loadLatestSnapshot entityName entityID ;;
  debug [AStr ("[EventStore#calculateAndStoreEntitySnapshot] Looking for the reducer for entity "
               +:+ entityName +:+ " with ID " +:+ entityID)] ;;;
  newEntitySnapshot <- reduce entityReducerCallback pendingEnvelopes latestSnapshotEnvelope ;;
  debug [AStr ("[EventStore#calculateAndStoreEntitySnapshot] Reduced new snapshot for entity "
               +:+ entityName +:+ " with ID " +:+ entityID +:+ ": ");
         AEnvelope newEntitySnapshot] ;;;
  match newEntitySnapshot with
  | None =>
      debug [AStr "New entity snapshot is null. Returning old one (which can also be null)"] ;;;
      ret latestSnapshotEnvelope
  | Some newEntitySnapshot_ =>
      storeSnapshot newEntitySnapshot_ ;;;
      ret (Some newEntitySnapshot_)
  end.

End EventStore.

(** ** Observations on a run *)

(** The store calls among the provider calls made so far. *)
Definition storeCalls {P} (w : World P) : list ProviderCall :=
  List.filter isStore (w_calls w).

(** The event of a log entry written at the head of [entityReducer]. *)
Definition foldedEvent (entry : LogEntry) : option EventEnvelope :=
  match entry with
  | LDebug [AStr s; AEnvelope (Some e); AStr _; AEnvelope _] =>
      if String.eqb s "[EventStore#entityReducer]: Calling reducer with event: "
      then Some e else None
  | _ => None
  end.

(** The events handed to [entityReducer] so far, in order. *)
Definition foldedEvents {P} (w : World P) : list EventEnvelope :=
  omap foldedEvent (w_log w).

(** The callable a registry entry resolves to, when it does. *)
Definition resolve (config : BoosterConfig) (eventName : string) : option Reducer :=
  match readReducers config eventName with
  | Some md =>
      match class md with
      | Some c =>
          match lookupMember c (methodName md) with
          | Some (PFunction f) => Some f
          | _ => None
          end
      | None => None
      end
  | None => None
  end.

(** [latestSnapshot ? latestSnapshot.value : null] *)
Definition snapshotValue (latestSnapshot : option EventEnvelope) : JsValue :=
  match latestSnapshot with Some s => value s | None => JNull end.

(** What [reducerForEvent(e.typeName)(e.value, v)] comes to, the logging
    left aside: the reducer's completion, or the error of a failed
    lookup or of calling something that is not a function. *)
Definition stepOutcome (config : BoosterConfig) (e : EventEnvelope) (v : JsValue)
  : Completion JsValue :=
  match readReducers config (typeName e) with
  | None => Throw (InvalidParameterError ("No reducer registered for event " +:+ typeName e))
  | Some md =>
      match class md with
      | None => Throw (TypeError "Cannot read properties of undefined (reading 'name')")
      | Some c =>
          match lookupMember c (methodName md) with
          | Some (PFunction f) => f (value e) v
          | Some (PThrowingGetter _) =>
              Throw (Error ("Couldn't load the Entity class " +:+ name c))
          | Some (PData _) | None =>
              Throw (TypeError "this.reducerForEvent(...) is not a function")
          end
      end
  end.

(** The chain of reducer results over a list of events, from the value
    [v]: [Some] of the last result when every step returns. *)
Fixpoint foldValues (config : BoosterConfig) (events : list EventEnvelope) (v : JsValue)
  : option JsValue :=
  match events with
  | [] => Some v
  | e :: rest =>
      match stepOutcome config e v with
      | Normal v' => foldValues config rest v'
      | Throw _ => None
      end
  end.

(** The envelope [entityReducer] builds from the event [e], the reducer's
    result [v] and the clock reading [t]. *)
Definition snapshotOf (config : BoosterConfig) (e : EventEnvelope) (v : JsValue)
    (t : string) : EventEnvelope :=
  {| version := currentVersionFor config (entityTypeName e);
     kind := KSnapshot;
     requestID := requestID e;
     entityID := entityID e;
     entityTypeName := entityTypeName e;
     typeName := entityTypeName e;
     value := v;
     createdAt := t;
     snapshottedEventCreatedAt := Some (createdAt e) |}.

(** The fields a snapshot envelope [s] takes from the event [e] it was
    folded from. *)
Definition snapshotTakenFrom (config : BoosterConfig) (s e : EventEnvelope) : Prop :=
  entityID s = entityID e /\
  entityTypeName s = entityTypeName e /\
  requestID s = requestID e /\
  typeName s = entityTypeName e /\
  kind s = KSnapshot /\
  version s = currentVersionFor config (entityTypeName e) /\
  snapshottedEventCreatedAt s = Some (createdAt e).

(** ** An in-memory provider *)

Module InMemory.

(** Modelled from the spec: the persistence provider is an external
    collaborator, known here by its interface only: "returns the most
    recently stored snapshot for the entity, optionally bounded by
    time", "returns all events strictly after `sinceTimestamp`, in
    creation order", "upserts the snapshot as the latest for its
    entity".  The state is the list of stored envelopes, oldest first. *)
Definition State := list EventEnvelope.

Definition ofEntity (entityName : string) (id : UUID) (e : EventEnvelope) : bool :=
  String.eqb (entityTypeName e) entityName && String.eqb (entityID e) id.

Definition isSnapshot (e : EventEnvelope) : bool :=
  match kind e with KSnapshot => true | KEvent => false end.

Definition isEvent (e : EventEnvelope) : bool :=
  match kind e with KEvent => true | KSnapshot => false end.

Definition notAfter (at_ : option Date) (e : EventEnvelope) : bool :=
  match at_ with
  | None => true
  | Some d => String.leb (createdAt e) d
  end.

Definition provider : ProviderLibrary State := {|
  latestEntitySnapshot entityName id at_ p :=
    (Normal (last (List.filter
                     (fun e => isSnapshot e && ofEntity entityName id e && notAfter at_ e) p)),
     p);
  forEntitySince entityName id timestamp p :=
    (Normal (List.filter
               (fun e => isEvent e && ofEntity entityName id e
                         && String.ltb timestamp (createdAt e)) p),
     p);
  store envelopes p := (Normal tt, (p ++ envelopes))
|}.

Definition world (p : State) : World State := mkWorld p [] [] 0.

End InMemory.

(** ** The members every class inherits *)

Module Node.

(** What a class that extends nothing inherits, by name: the members of
    [Function.prototype], then those of [Object.prototype] it does not
    shadow.  Each function is given as it behaves when called as
    [f(eventValue, snapshotValue)], without a receiver; the messages are
    the engine's, and [Function] is the one of an engine started with
    code generation from strings disallowed. *)
Definition noReceiver : JsError :=
  TypeError "Cannot convert undefined or null to object".

Definition restricted : JsError :=
  TypeError "'caller', 'callee', and 'arguments' properties may not be accessed on strict mode functions or the arguments objects for calls to them".

Definition codeGenerationDisallowed : JsError :=
  Thrown (JObj [("name", JStr "EvalError");
                ("message", JStr "Code generation from strings disallowed for this context")]).

Definition throws (e : JsError) : Property := PFunction (fun _ _ => Throw e).

(** [Object.prototype.isPrototypeOf(V)]: false when [V] is not an
    object, before the receiver is looked at. *)
Definition isPrototypeOf : Reducer := fun eventValue _ =>
  match eventValue with
  | JObj _ => Throw noReceiver
  | _ => Normal (JBool false)
  end.

Definition classChain : gmap string Property :=
  list_to_map
    [ ("apply", throws (TypeError "Function.prototype.apply was called on undefined, which is a undefined and not a function"));
      ("bind", throws (TypeError "Bind must be called on a function"));
      ("call", throws (TypeError "Function.prototype.call was called on undefined, which is a undefined and not a function"));
      ("toString", throws (TypeError "Function.prototype.toString requires that 'this' be a Function"));
      ("constructor", throws codeGenerationDisallowed);
      ("arguments", PThrowingGetter restricted);
      ("caller", PThrowingGetter restricted);
      ("hasOwnProperty", throws noReceiver);
      ("isPrototypeOf", PFunction isPrototypeOf);
      ("propertyIsEnumerable", throws noReceiver);
      ("toLocaleString", throws (TypeError "Object.prototype.toLocaleString called on null or undefined"));
      ("valueOf", throws noReceiver);
      ("__defineGetter__", throws (TypeError "Object.prototype.__defineGetter__ called on null or undefined"));
      ("__defineSetter__", throws (TypeError "Object.prototype.__defineSetter__ called on null or undefined"));
      ("__lookupGetter__", throws (TypeError "Object.prototype.__lookupGetter__ called on null or undefined"));
      ("__lookupSetter__", throws (TypeError "Object.prototype.__lookupSetter__ called on null or undefined"));
      (* the getter answers [Function.prototype], which can be called
         and returns [undefined] *)
      ("__proto__", PFunction (fun _ _ => Normal JUndefined)) ].

End Node.

(** ** A sample application: a counter *)

Module Counter.

(** [Counter.reduceAdded]: adds the event's amount to the counter. *)
Definition reduceAdded : Reducer := fun event current =>
  match event, current with
  | JNum n, JNum m => Normal (JNum (m + n))
  | JNum n, _ => Normal (JNum n)
  | _, _ => Normal current
  end.

(** [Counter.reduceCleared]: the entity is gone. *)
Definition reduceCleared : Reducer := fun _ _ => Normal JNull.

(** [Counter.reduceBroken]: always throws. *)
Definition reduceBroken : Reducer := fun _ _ => Throw (Thrown (JStr "boom")).

Definition Counter : AnyClass := {|
  name := "Counter";
  arity := 0;
  statics := {[ "reduceAdded" := PFunction reduceAdded;
                "reduceCleared" := PFunction reduceCleared;
                "reduceBroken" := PFunction reduceBroken ]};
  inherited := Node.classChain
|}.

(** "Renamed" is registered with a method the class does not have. *)
Definition config : BoosterConfig := {|
  reducers := {[ "Added" := {| class := Some Counter; methodName := "reduceAdded" |};
                 "Cleared" := {| class := Some Counter; methodName := "reduceCleared" |};
                 "Broken" := {| class := Some Counter; methodName := "reduceBroken" |};
                 "Renamed" := {| class := Some Counter; methodName := "reduceRenamed" |} ]};
  currentVersionFor := fun _ => 1
|}.

(** A stopped clock. *)
Definition now : nat -> string := fun _ => "2022-06-01T12:00:00.000Z".

Definition event (type : string) (v : JsValue) (t : string) : EventEnvelope := {|
  version := 1;
  kind := KEvent;
  requestID := "req-1";
  entityID := "c-1";
  entityTypeName := "Counter";
  typeName := type;
  value := v;
  createdAt := t;
  snapshottedEventCreatedAt := None
|}.

Definition added5 := event "Added" (JNum 5) "2021-01-01T00:00:00.000Z".
Definition added7 := event "Added" (JNum 7) "2021-02-01T00:00:00.000Z".
Definition cleared := event "Cleared" JNull "2021-03-01T00:00:00.000Z".
Definition broken := event "Broken" JNull "2021-04-01T00:00:00.000Z".
Definition unknown := event "Unknown" JNull "2021-05-01T00:00:00.000Z".
Definition renamed := event "Renamed" JNull "2021-06-01T00:00:00.000Z".
(** An event whose type is not registered and is called like a member of
    [Object.prototype]. *)
Definition inherits := event "constructor" JNull "2021-07-01T00:00:00.000Z".

(** The snapshot of the counter after [added5]. *)
Definition snapshot5 : EventEnvelope :=
  snapshotOf config added5 (JNum 5) "2021-01-01T00:00:01.000Z".

(** A snapshot-kind envelope stored without its cursor field. *)
Definition snapshotNoCursor : EventEnvelope := {|
  version := 1;
  kind := KSnapshot;
  requestID := "req-0";
  entityID := "c-1";
  entityTypeName := "Counter";
  typeName := "Counter";
  value := JNum 5;
  createdAt := "2021-01-01T00:00:01.000Z";
  snapshottedEventCreatedAt := None
|}.

Definition fetch (p : InMemory.State) (at_ : option Date) :=
  fetchEntitySnapshot config InMemory.provider now "Counter" "c-1" at_ (InMemory.world p).

Definition calculateAndStore (p : InMemory.State) (pending : list EventEnvelope) :=
  calculateAndStoreEntitySnapshot config InMemory.provider now "Counter" "c-1" pending
    (InMemory.world p).

End Counter.

(** ** More observations and sample data *)

(** The arguments of the [logger.error] calls made so far, in order. *)
Definition loggedErrors {P} (w : World P) : list (list LogArg) :=
  omap (fun entry => match entry with LError args => Some args | LDebug _ => None end)
       (w_log w).

(** The entry [entityReducer] writes in its [catch]. *)
Definition reducerErrorEntry (err : JsError) : list LogArg :=
  [AStr "Error when calling reducer"; AError err].

Module Flaky.

(** Modelled from the spec: a provider whose calls can fail ("Provider
    errors (load/store failures) are passed through unmodified").  It is
    the in-memory provider with each of its three calls rejected when the
    matching switch is on; a rejected call leaves the state as it is. *)
Definition down : JsError := Thrown (JStr "provider unavailable").

Definition provider (failLoad failEvents failStore : bool)
  : ProviderLibrary InMemory.State := {|
  latestEntitySnapshot entityName id at_ p :=
    if failLoad then (Throw down, p)
    else latestEntitySnapshot InMemory.provider entityName id at_ p;
  forEntitySince entityName id timestamp p :=
    if failEvents then (Throw down, p)
    else forEntitySince InMemory.provider entityName id timestamp p;
  store envelopes p :=
    if failStore then (Throw down, p)
    else store InMemory.provider envelopes p
|}.

End Flaky.

Module Lazy.

(** A class whose static [reduceLoaded] is a getter that throws, and
    whose static [label] is a string. *)
Definition Lazy : AnyClass := {|
  name := "Lazy";
  arity := 0;
  statics := {[ "reduceLoaded" := PThrowingGetter (Thrown (JStr "module not loaded"));
                "label" := PData (JStr "lazy") ]};
  inherited := Node.classChain
|}.

(** "Probed" names a member the class inherits; "Orphaned" has no holder
    class. *)
Definition config : BoosterConfig := {|
  reducers := {[ "Loaded" := {| class := Some Lazy; methodName := "reduceLoaded" |};
                 "Labelled" := {| class := Some Lazy; methodName := "label" |};
                 "Probed" := {| class := Some Lazy; methodName := "isPrototypeOf" |};
                 "Orphaned" := {| class := None; methodName := "reduceOrphaned" |} ]};
  currentVersionFor := fun _ => 2
|}.

Definition event (type : string) (t : string) : EventEnvelope := {|
  version := 2;
  kind := KEvent;
  requestID := "req-7";
  entityID := "l-1";
  entityTypeName := "Lazy";
  typeName := type;
  value := JNull;
  createdAt := t;
  snapshottedEventCreatedAt := None
|}.

Definition probed := event "Probed" "2021-08-01T00:00:00.000Z".
Definition orphaned := event "Orphaned" "2021-09-01T00:00:00.000Z".


Definition labelled : EventEnvelope := {|
  version := 2;
  kind := KEvent;
  requestID := "req-9";
  entityID := "l-1";
  entityTypeName := "Lazy";
  typeName := "Labelled";
  value := JNull;
  createdAt := "2021-07-01T00:00:00.000Z";
  snapshottedEventCreatedAt := None
|}.

End Lazy.

(** ** Proof steps for the read path *)

(** Opens a run of [fetchEntitySnapshot] up to the provider's answers. *)
Ltac fetch_unfold :=
  unfold fetchEntitySnapshot, loadSnapshot, loadEventStreamSince, callProvider,
    bind, debug, ret;
  cbn.

(** Names the outcome of the fold in the goal and hands what the lemma
    [frame] says of it to [k]. *)
Ltac with_reduce frame k :=
  match goal with
  | |- context [reduce ?cb ?l ?a ?w0] =>
      let Hfr := fresh "Hfr" in
      pose proof (frame l a w0) as Hfr;
      destruct (reduce cb l a w0) as [[?s|?err] ?w3];
      k Hfr
  end.

(** ** Sanity checks on the sample application *)

Example fetch_nothing : (Counter.fetch [] None).1 = Normal None.
Proof. vm_compute. reflexivity. Qed.

Example fetch_two_events :
  (Counter.fetch [Counter.added5; Counter.added7] None).1
  = Normal (Some (snapshotOf Counter.config Counter.added7 (JNum 12) "2022-06-01T12:00:00.000Z")).
Proof. vm_compute. reflexivity. Qed.

Example fetch_from_snapshot :
  (Counter.fetch [Counter.added5; Counter.snapshot5; Counter.added7] None).1
  = Normal (Some (snapshotOf Counter.config Counter.added7 (JNum 12) "2022-06-01T12:00:00.000Z")).
Proof. vm_compute. reflexivity. Qed.

Example fetch_broken :
  (Counter.fetch [Counter.added5; Counter.broken] None).1 = Throw (Thrown (JStr "boom")).
Proof. vm_compute. reflexivity. Qed.

Example fetch_unknown :
  (Counter.fetch [Counter.unknown] None).1
  = Throw (InvalidParameterError "No reducer registered for event Unknown").
Proof. vm_compute. reflexivity. Qed.

Example fetch_renamed :
  (Counter.fetch [Counter.renamed] None).1
  = Throw (TypeError "this.reducerForEvent(...) is not a function").
Proof. vm_compute. reflexivity. Qed.

Example fetch_snapshot_without_cursor :
  w_calls (Counter.fetch [Counter.added5; Counter.snapshotNoCursor] None).2
  = [CallLatestEntitySnapshot "Counter" "c-1" None;
     CallForEntitySince "Counter" "c-1" originOfTime].
Proof. vm_compute. reflexivity. Qed.

Example fetch_inherited_name :
  (Counter.fetch [Counter.inherits] None).1
  = Throw (TypeError "Cannot read properties of undefined (reading 'name')").
Proof. vm_compute. reflexivity. Qed.

Example fetch_inherited_member :
  (fetchEntitySnapshot Lazy.config InMemory.provider Counter.now "Lazy" "l-1" None
     (InMemory.world [Lazy.probed])).1
  = Normal (Some (snapshotOf Lazy.config Lazy.probed (JBool false)
                    "2022-06-01T12:00:00.000Z")).
Proof. vm_compute. reflexivity. Qed.

Example fetch_without_holder_class :
  (fetchEntitySnapshot Lazy.config InMemory.provider Counter.now "Lazy" "l-1" None
     (InMemory.world [Lazy.orphaned])).1
  = Throw (TypeError "Cannot read properties of undefined (reading 'name')").
Proof. vm_compute. reflexivity. Qed.

Example store_throws :
  (Counter.calculateAndStore [Counter.added5; Counter.snapshot5] [Counter.added7]).1
  = Throw (TypeError "this.loadLatestSnapshot is not a function").
Proof. vm_compute. reflexivity. Qed.

(** ** One fold step *)

Section Facts.
Context {P : Type}.
Variable config : BoosterConfig.
Variable now : nat -> string.

(** What one call of [entityReducer] does: it touches neither the
    provider nor the list of provider calls, it is recorded as one more
    folded event, and it returns the envelope built from the event and
    the reducer's result, or throws what the step throws. *)
Lemma entityReducer_spec (acc : option EventEnvelope) (e : EventEnvelope) (w : World P) :
  let r := entityReducer config now acc e w in
  w_provider r.2 = w_provider w /\
  w_calls r.2 = w_calls w /\
  foldedEvents r.2 = (foldedEvents w ++ [e]) /\
  match stepOutcome config e (snapshotValue acc) with
  | Normal v =>
      r.1 = Normal (snapshotOf config e v (now (w_clock w)))
      /\ w_clock r.2 = S (w_clock w)
  | Throw err => r.1 = Throw err
  end.
Proof.
  unfold entityReducer, reducerForEvent, getProperty, getName, call, tryCatch, bind,
    debug, error, throw, ret, newDateISOString, foldedEvents, snapshotValue,
    stepOutcome.
  cbn.
  destruct (readReducers config (typeName e)) as [md|]; cbn.
  - destruct (class md) as [c|]; cbn.
    + destruct (lookupMember c (methodName md)) as [[f|v|err]|]; cbn.
      * destruct acc as [s|]; cbn;
          destruct (f (value e) _) as [v|err]; cbn;
          rewrite ?omap_app; cbn; rewrite ?app_nil_r, <- ?app_assoc; auto.
      * rewrite ?omap_app; cbn; rewrite ?app_nil_r; auto.
      * rewrite ?omap_app; cbn; rewrite ?app_nil_r; auto.
      * rewrite ?omap_app; cbn; rewrite ?app_nil_r; auto.
    + rewrite ?omap_app; cbn; rewrite ?app_nil_r; auto.
  - rewrite ?omap_app; cbn; rewrite ?app_nil_r; auto.
Qed.

Lemma stepOutcome_resolved (e : EventEnvelope) (v : JsValue) (f : Reducer) :
  resolve config (typeName e) = Some f ->
  stepOutcome config e v = f (value e) v.
Proof.
  unfold resolve, stepOutcome.
  destruct (readReducers config (typeName e)) as [md|]; [|discriminate].
  destruct (class md) as [c|]; [|discriminate].
  destruct (lookupMember c (methodName md)) as [[g|?|?]|]; try discriminate.
  intros [= ->]. reflexivity.
Qed.

(** The registry read finds nothing under a name that is neither
    registered nor one of [Object.prototype]'s. *)
Lemma readReducers_unregistered (eventName : string) :
  reducers config !! eventName = None ->
  ~ In eventName objectPrototypeKeys ->
  readReducers config eventName = None.
Proof.
  intros Hreg Hnot. unfold readReducers, isObjectPrototypeKey. rewrite Hreg.
  destruct (existsb (String.eqb eventName) objectPrototypeKeys) eqn:E; [|reflexivity].
  apply existsb_exists in E as (k & Hin & Hk).
  apply String.eqb_eq in Hk. subst k. contradiction.
Qed.

(** Under such a name it finds the inherited member. *)
Lemma readReducers_inherited (eventName : string) :
  reducers config !! eventName = None ->
  In eventName objectPrototypeKeys ->
  readReducers config eventName = Some inheritedMember.
Proof.
  intros Hreg Hin. unfold readReducers, isObjectPrototypeKey. rewrite Hreg.
  assert (E : existsb (String.eqb eventName) objectPrototypeKeys = true).
  { apply existsb_exists. exists eventName. split; [exact Hin | apply String.eqb_refl]. }
  rewrite E. reflexivity.
Qed.

Lemma stepOutcome_unregistered (e : EventEnvelope) (v : JsValue) :
  reducers config !! typeName e = None ->
  ~ In (typeName e) objectPrototypeKeys ->
  stepOutcome config e v
  = Throw (InvalidParameterError ("No reducer registered for event " +:+ typeName e)).
Proof.
  intros Hreg Hnot. unfold stepOutcome.
  rewrite (readReducers_unregistered _ Hreg Hnot). reflexivity.
Qed.

Lemma stepOutcome_inherited (e : EventEnvelope) (v : JsValue) :
  reducers config !! typeName e = None ->
  In (typeName e) objectPrototypeKeys ->
  stepOutcome config e v
  = Throw (TypeError "Cannot read properties of undefined (reading 'name')").
Proof.
  intros Hreg Hin. unfold stepOutcome.
  rewrite (readReducers_inherited _ Hreg Hin). reflexivity.
Qed.

(** The callback of [reduce] is [entityReducer] with its result as the
    next accumulator. *)
Lemma entityReducerCallback_eq (acc : option EventEnvelope) (e : EventEnvelope) (w : World P) :
  entityReducerCallback config now acc e w
  = match entityReducer config now acc e w with
    | (Normal s, w') => (Normal (Some s), w')
    | (Throw err, w') => (Throw err, w')
    end.
Proof. reflexivity. Qed.

(** ** The fold *)

(** A fold never talks to the provider, and the events it hands to
    [entityReducer] are a prefix of its list: the whole list when it
    completes. *)
Lemma reduce_frame (l : list EventEnvelope) :
  forall (acc : option EventEnvelope) (w : World P),
    let r := reduce (entityReducerCallback config now) l acc w in
    w_provider r.2 = w_provider w /\
    w_calls r.2 = w_calls w /\
    exists folded,
      foldedEvents r.2 = (foldedEvents w ++ folded) /\
      folded `prefix_of` l /\
      (forall a, r.1 = Normal a -> folded = l).
Proof.
  induction l as [|e rest IH]; intros acc w; cbn.
  - repeat split; auto. exists []. rewrite app_nil_r. repeat split; auto.
  - unfold bind. rewrite entityReducerCallback_eq.
    destruct (entityReducer_spec acc e w) as (Hp & Hc & Hf & _).
    destruct (entityReducer config now acc e w) as [[s|err] w1]; cbn in *.
    + destruct (IH (Some s) w1) as (Hp' & Hc' & folded & Hf' & Hpre & Hall).
      repeat split; [congruence | congruence |].
      exists (e :: folded). split; [|split].
      * rewrite Hf', Hf, <- app_assoc. reflexivity.
      * by apply prefix_cons.
      * intros a Ha. f_equal. eauto.
    + repeat split; auto. exists [e]. split; [done|]. split.
      * apply prefix_cons, prefix_nil.
      * discriminate.
Qed.

(** A fold whose steps all return ends in the envelope built from its
    last event and the last reducer result. *)
Lemma reduce_normal (pre : list EventEnvelope) :
  forall (e : EventEnvelope) (acc : option EventEnvelope) (w : World P) (v : JsValue),
    foldValues config (pre ++ [e]) (snapshotValue acc) = Some v ->
    let r := reduce (entityReducerCallback config now) (pre ++ [e]) acc w in
    r.1 = Normal (Some (snapshotOf config e v (now (w_clock w + length pre)%nat))) /\
    w_clock r.2 = (w_clock w + S (length pre))%nat.
Proof.
  induction pre as [|x pre IH]; intros e acc w v; cbn.
  - unfold bind. rewrite entityReducerCallback_eq.
    destruct (entityReducer_spec acc e w) as (_ & _ & _ & Hr).
    destruct (stepOutcome config e (snapshotValue acc)) as [v'|err]; [|discriminate].
    intros [= <-]. destruct Hr as [Hr Hk].
    destruct (entityReducer config now acc e w) as [[s|err] w1]; cbn in *;
      [|discriminate].
    injection Hr as ->. rewrite Hk, Nat.add_0_r, Nat.add_1_r. auto.
  - unfold bind. rewrite entityReducerCallback_eq.
    destruct (entityReducer_spec acc x w) as (_ & _ & _ & Hr).
    destruct (stepOutcome config x (snapshotValue acc)) as [v'|err]; [|discriminate].
    intros Hrest. destruct Hr as [Hr Hk].
    destruct (entityReducer config now acc x w) as [[s|err] w1]; cbn in *;
      [|discriminate].
    injection Hr as ->.
    destruct (IH e (Some (snapshotOf config x v' (now (w_clock w)))) w1 v Hrest)
      as [H1 H2].
    rewrite H1, H2, Hk. split; [|lia].
    replace (S (w_clock w) + length pre)%nat with (w_clock w + S (length pre))%nat by lia.
    reflexivity.
Qed.

(** A fold stops at the first step that throws, with that error. *)
Lemma reduce_throws (pre : list EventEnvelope) :
  forall (e : EventEnvelope) (post : list EventEnvelope)
         (acc : option EventEnvelope) (w : World P) (v : JsValue) (err : JsError),
    foldValues config pre (snapshotValue acc) = Some v ->
    stepOutcome config e v = Throw err ->
    let r := reduce (entityReducerCallback config now) (pre ++ e :: post) acc w in
    r.1 = Throw err /\
    foldedEvents r.2 = (foldedEvents w ++ pre ++ [e]).
Proof.
  induction pre as [|x pre IH]; intros e post acc w v err; cbn.
  - intros [= <-] Hstep. unfold bind. rewrite entityReducerCallback_eq.
    destruct (entityReducer_spec acc e w) as (_ & _ & Hf & Hr).
    rewrite Hstep in Hr.
    destruct (entityReducer config now acc e w) as [[s|err'] w1]; cbn in *;
      [discriminate|]. injection Hr as ->. split; [reflexivity | exact Hf].
  - unfold bind. rewrite entityReducerCallback_eq.
    destruct (entityReducer_spec acc x w) as (_ & _ & Hf & Hr).
    destruct (stepOutcome config x (snapshotValue acc)) as [v'|err']; [|discriminate].
    intros Hrest Hstep. destruct Hr as [Hr _].
    destruct (entityReducer config now acc x w) as [[s|err'] w1]; cbn in *;
      [|discriminate].
    injection Hr as ->.
    destruct (IH e post (Some (snapshotOf config x v' (now (w_clock w)))) w1 v err
                Hrest Hstep) as [H1 H2].
    rewrite H1, H2, Hf, <- app_assoc. auto.
Qed.

(** The outcome of a fold depends on the world through the clock only. *)
Lemma reduce_clock_only (l : list EventEnvelope) :
  forall (acc : option EventEnvelope) (w w' : World P),
    w_clock w = w_clock w' ->
    (reduce (entityReducerCallback config now) l acc w).1
    = (reduce (entityReducerCallback config now) l acc w').1.
Proof.
  induction l as [|e rest IH]; intros acc w w' Hk; cbn; [reflexivity|].
  unfold bind. rewrite !entityReducerCallback_eq.
  destruct (entityReducer_spec acc e w) as (_ & _ & _ & Hr).
  destruct (entityReducer_spec acc e w') as (_ & _ & _ & Hr').
  destruct (stepOutcome config e (snapshotValue acc)) as [v|err].
  - destruct Hr as [Hr Hc], Hr' as [Hr' Hc'].
    destruct (entityReducer config now acc e w) as [[s|?] w1]; cbn in *; [|discriminate].
    destruct (entityReducer config now acc e w') as [[s'|?] w1']; cbn in *; [|discriminate].
    injection Hr as ->. injection Hr' as ->. rewrite Hk.
    apply IH. congruence.
  - destruct (entityReducer config now acc e w) as [[s|?] w1]; cbn in *; [discriminate|].
    destruct (entityReducer config now acc e w') as [[s'|?] w1']; cbn in *; [discriminate|].
    congruence.
Qed.

Lemma ltb_not_leb (a b : string) : String.ltb a b = true -> String.leb b a = false.
Proof.
  unfold String.ltb, String.leb. rewrite (String.compare_antisym a b).
  destruct (String.compare b a); cbn; congruence.
Qed.

End Facts.

(** ** The two operations *)

Section Operations.
Context {P : Type}.
Variable config : BoosterConfig.
Variable provider : ProviderLibrary P.
Variable now : nat -> string.

Lemma filter_isStore_other (calls : list ProviderCall) (c : ProviderCall) :
  isStore c = false ->
  List.filter isStore (calls ++ [c]) = List.filter isStore calls.
Proof.
  intros Hc. rewrite List.filter_app. cbn. rewrite Hc. apply app_nil_r.
Qed.

Lemma fetchEntitySnapshot_storeCalls
    (entityName : string) (entityID : UUID) (at_ : option Date) (w : World P) :
  storeCalls (fetchEntitySnapshot config provider now entityName entityID at_ w).2
  = storeCalls w.
Proof.
  unfold storeCalls. fetch_unfold.
  destruct (latestEntitySnapshot provider entityName entityID at_ (w_provider w))
    as [[snap|err] p1]; cbn.
  2:{ by apply filter_isStore_other. }
  destruct (forEntitySince provider entityName entityID (lastVisitedTime snap) p1)
    as [[evs|err] p2]; cbn.
  2:{ by rewrite !filter_isStore_other. }
  destruct (length evs <=? 0)%nat; cbn; [by rewrite !filter_isStore_other|].
  with_reduce (@reduce_frame P config now) ltac:(fun Hfr => destruct Hfr as (_ & Hc & _));
    cbn in *; rewrite Hc; by rewrite !filter_isStore_other.
Qed.

(** (C6) [fetchEntitySnapshot] never writes: whatever the provider
    answers and however the fold ends, the store calls recorded after
    the call are those recorded before it. *)
Theorem fetchEntitySnapshot_never_stores
    (entityName : string) (entityID : UUID) (at_ : option Date) (w : World P) :
  storeCalls (fetchEntitySnapshot config provider now entityName entityID at_ w).2
  = storeCalls w.
Proof. apply fetchEntitySnapshot_storeCalls. Qed.

Lemma length_snoc_leb (pre : list EventEnvelope) (e : EventEnvelope)
    (post : list EventEnvelope) :
  (length (pre ++ e :: post) <=? 0)%nat = false.
Proof. rewrite length_app. cbn. apply Nat.leb_gt. lia. Qed.

(** A fetch whose fold meets a throwing step ends with that throw,
    after that very event. *)
Lemma fetchEntitySnapshot_throws
    (entityName : string) (entityID : UUID) (at_ : option Date) (w : World P)
    (snap : option EventEnvelope) (p1 p2 : P)
    (pre : list EventEnvelope) (ev : EventEnvelope) (post : list EventEnvelope)
    (v : JsValue) (err : JsError) :
  latestEntitySnapshot provider entityName entityID at_ (w_provider w) = (Normal snap, p1) ->
  forEntitySince provider entityName entityID (lastVisitedTime snap) p1
    = (Normal (pre ++ ev :: post), p2) ->
  foldValues config pre (snapshotValue snap) = Some v ->
  stepOutcome config ev v = Throw err ->
  let r := fetchEntitySnapshot config provider now entityName entityID at_ w in
  r.1 = Throw err /\
  w_provider r.2 = p2 /\
  foldedEvents r.2 = (foldedEvents w ++ pre ++ [ev]).
Proof.
  intros Hload Hev Hpre Hstep. cbn zeta.
  fetch_unfold. rewrite Hload. cbn. rewrite Hev. cbn.
  rewrite length_snoc_leb.
  match goal with
  | |- context [reduce ?cb ?l ?a ?w0] =>
      destruct (reduce_throws config now pre ev post a w0 v err Hpre Hstep) as [H1 H2];
      destruct (reduce_frame config now l a w0) as (Hp & _);
      destruct (reduce cb l a w0) as [[s|err'] w3]
  end; cbn in *; [discriminate|].
  split; [exact H1|]. split; [exact Hp|].
  rewrite H2. unfold foldedEvents. cbn. rewrite !omap_app. cbn.
  by rewrite !app_nil_r.
Qed.

(** (C8) With no stored snapshot and no events, [fetchEntitySnapshot]
    completes normally and returns null. *)
Theorem fetchEntitySnapshot_nothing_is_null
    (entityName : string) (entityID : UUID) (at_ : option Date) (w : World P) (p1 p2 : P)
    (Hload : latestEntitySnapshot provider entityName entityID at_ (w_provider w)
             = (Normal None, p1))
    (Hevents : forEntitySince provider entityName entityID originOfTime p1
               = (Normal [], p2)) :
  (fetchEntitySnapshot config provider now entityName entityID at_ w).1 = Normal None.
Proof.
  fetch_unfold. rewrite Hload. cbn. rewrite Hevents. reflexivity.
Qed.

(** (C1) The cursor handed to the event-stream load is the loaded
    snapshot's [snapshottedEventCreatedAt], and the epoch when there is
    no snapshot; with a provider that answers [forEntitySince] with
    events created strictly after the timestamp it is given, every
    event the call folds was created strictly after the cursor, so none
    created at or before it is folded again. *)
Theorem fetchEntitySnapshot_cursor
    (entityName : string) (entityID : UUID) (at_ : option Date) (w : World P)
    (snap : option EventEnvelope) (p1 : P)
    (Hload : latestEntitySnapshot provider entityName entityID at_ (w_provider w)
             = (Normal snap, p1))
    (Hsince : forall t p evs p',
        forEntitySince provider entityName entityID t p = (Normal evs, p') ->
        Forall (fun e => String.ltb t (createdAt e) = true) evs) :
  let r := fetchEntitySnapshot config provider now entityName entityID at_ w in
  let cursor := lastVisitedTime snap in
  w_calls r.2 = (w_calls w ++ [CallLatestEntitySnapshot entityName entityID at_;
                               CallForEntitySince entityName entityID cursor]) /\
  (snap = None -> cursor = originOfTime) /\
  (forall s t, snap = Some s -> snapshottedEventCreatedAt s = Some t -> cursor = t) /\
  (forall s, snap = Some s -> snapshottedEventCreatedAt s = None -> cursor = originOfTime) /\
  exists folded,
    foldedEvents r.2 = (foldedEvents w ++ folded) /\
    Forall (fun e => String.ltb cursor (createdAt e) = true
                     /\ String.leb (createdAt e) cursor = false) folded.
Proof.
  cbn zeta. split; [|split; [|split; [|split]]].
  - fetch_unfold. rewrite Hload. cbn.
    destruct (forEntitySince provider entityName entityID (lastVisitedTime snap) p1)
      as [[evs|err] p2]; cbn; [|by rewrite <- app_assoc].
    destruct (length evs <=? 0)%nat; cbn; [by rewrite <- app_assoc|].
    with_reduce (@reduce_frame P config now) ltac:(fun Hfr => destruct Hfr as (_ & Hc & _));
      cbn in *; rewrite Hc; by rewrite <- app_assoc.
  - intros ->. reflexivity.
  - intros s t -> Ht. cbn. rewrite Ht. reflexivity.
  - intros s -> Ht. cbn. rewrite Ht. reflexivity.
  - unfold foldedEvents. fetch_unfold. rewrite Hload. cbn.
    destruct (forEntitySince provider entityName entityID (lastVisitedTime snap) p1)
      as [[evs|err] p2] eqn:Hev; cbn.
    2:{ exists []. rewrite !omap_app. cbn. rewrite !app_nil_r. auto. }
    destruct (length evs <=? 0)%nat; cbn.
    { exists []. rewrite !omap_app. cbn. rewrite !app_nil_r. auto. }
    apply Hsince in Hev.
    with_reduce (@reduce_frame P config now)
      ltac:(fun Hfr => destruct Hfr as (_ & _ & folded & Hf & [rest ->] & _));
      unfold foldedEvents in Hf; cbn in Hf;
      rewrite !omap_app in Hf; cbn in Hf; rewrite !app_nil_r in Hf;
      exists folded; (split;
        [ cbn; rewrite ?omap_app; cbn; repeat case_match; try discriminate; rewrite ?app_nil_r; exact Hf
        | apply Forall_app in Hev as [Hev _];
          eapply Forall_impl; [exact Hev|];
          intros e He; cbn in He; split; [exact He | by apply ltb_not_leb] ]).
Qed.

(** (X14) When the fold reaches an event whose type name is neither
    registered nor a name the registry object inherits, the call throws
    the [InvalidParameterError] of the lookup to its caller: the events
    after it are not folded, and nothing has been stored. *)
Theorem fetchEntitySnapshot_unregistered
    (entityName : string) (entityID : UUID) (at_ : option Date) (w : World P)
    (snap : option EventEnvelope) (p1 p2 : P)
    (pre : list EventEnvelope) (ev : EventEnvelope) (post : list EventEnvelope)
    (v : JsValue)
    (Hload : latestEntitySnapshot provider entityName entityID at_ (w_provider w)
             = (Normal snap, p1))
    (Hevents : forEntitySince provider entityName entityID (lastVisitedTime snap) p1
               = (Normal (pre ++ ev :: post), p2))
    (Hpre : foldValues config pre (snapshotValue snap) = Some v)
    (Hmissing : reducers config !! typeName ev = None)
    (Hplain : ~ In (typeName ev) objectPrototypeKeys) :
  let r := fetchEntitySnapshot config provider now entityName entityID at_ w in
  r.1 = Throw (InvalidParameterError ("No reducer registered for event " +:+ typeName ev)) /\
  storeCalls r.2 = storeCalls w /\
  w_provider r.2 = p2 /\
  foldedEvents r.2 = foldedEvents w ++ pre ++ [ev].
Proof.
  cbn zeta.
  destruct (fetchEntitySnapshot_throws entityName entityID at_ w snap p1 p2 pre ev post v _
              Hload Hevents Hpre (stepOutcome_unregistered config ev v Hmissing Hplain))
    as (Hr & Hp & Hf).
  split; [exact Hr|]. split; [apply fetchEntitySnapshot_storeCalls | auto].
Qed.

(** (X18) When the fold reaches an event whose type name is not
    registered but is a name the registry object inherits from
    [Object.prototype] (constructor, toString, ...), the lookup does not
    report a missing reducer: the call throws a [TypeError]. *)
Theorem fetchEntitySnapshot_inherited_name
    (entityName : string) (entityID : UUID) (at_ : option Date) (w : World P)
    (snap : option EventEnvelope) (p1 p2 : P)
    (pre : list EventEnvelope) (ev : EventEnvelope) (post : list EventEnvelope)
    (v : JsValue)
    (Hload : latestEntitySnapshot provider entityName entityID at_ (w_provider w)
             = (Normal snap, p1))
    (Hevents : forEntitySince provider entityName entityID (lastVisitedTime snap) p1
               = (Normal (pre ++ ev :: post), p2))
    (Hpre : foldValues config pre (snapshotValue snap) = Some v)
    (Hmissing : reducers config !! typeName ev = None)
    (Hinherited : In (typeName ev) objectPrototypeKeys) :
  let r := fetchEntitySnapshot config provider now entityName entityID at_ w in
  (exists message, r.1 = Throw (TypeError message)) /\
  storeCalls r.2 = storeCalls w /\
  foldedEvents r.2 = foldedEvents w ++ pre ++ [ev].
Proof.
  cbn zeta.
  destruct (fetchEntitySnapshot_throws entityName entityID at_ w snap p1 p2 pre ev post v _
              Hload Hevents Hpre (stepOutcome_inherited config ev v Hmissing Hinherited))
    as (Hr & Hp & Hf).
  split; [eauto|]. split; [apply fetchEntitySnapshot_storeCalls | auto].
Qed.

(** (C7) [at] reaches the snapshot load only.  The event-stream load is
    called with the entity and the cursor of the snapshot that came
    back; two calls that differ in [at] but get the same snapshot give
    the same result; and when the call returns, every event the
    provider listed after the cursor was folded, whatever [at] was. *)
Theorem fetchEntitySnapshot_at_selects_base_only
    (entityName : string) (entityID : UUID) (at_ at' : option Date) (w : World P)
    (snap : option EventEnvelope) (p1 p2 : P) (evs : list EventEnvelope)
    (Hload : latestEntitySnapshot provider entityName entityID at_ (w_provider w)
             = (Normal snap, p1))
    (Hload' : latestEntitySnapshot provider entityName entityID at' (w_provider w)
              = (Normal snap, p1))
    (Hevents : forEntitySince provider entityName entityID (lastVisitedTime snap) p1
               = (Normal evs, p2)) :
  let r := fetchEntitySnapshot config provider now entityName entityID at_ w in
  let r' := fetchEntitySnapshot config provider now entityName entityID at' w in
  w_calls r.2 = w_calls w ++ [CallLatestEntitySnapshot entityName entityID at_;
                              CallForEntitySince entityName entityID (lastVisitedTime snap)] /\
  r.1 = r'.1 /\
  (forall a, r.1 = Normal a -> foldedEvents r.2 = foldedEvents w ++ evs).
Proof.
  cbn zeta. unfold foldedEvents. fetch_unfold.
  rewrite Hload, Hload'. cbn. rewrite Hevents. cbn.
  destruct (length evs <=? 0)%nat eqn:Hlen; cbn.
  { split; [by rewrite <- app_assoc|]. split; [reflexivity|].
    intros _ _. destruct evs; [|discriminate].
    rewrite !omap_app. cbn. by rewrite !app_nil_r. }
  match goal with
  | |- context [reduce ?cb ?l ?a ?w0] =>
      match goal with
      | |- context [reduce cb l a ?w1] =>
          lazymatch w1 with
          | w0 => fail
          | _ => pose proof (reduce_clock_only config now l a w0 w1 eq_refl) as Hsame
          end
      end;
      destruct (reduce_frame config now l a w0) as (_ & Hc & folded & Hf & _ & Hall);
      destruct (reduce cb l a w0) as [[s|err] w3]
  end.
  - match goal with
    | |- context [reduce ?cb ?l ?a ?w1] => destruct (reduce cb l a w1) as [[s'|err'] w3']
    end; cbn in *; [|discriminate].
    split; [by rewrite Hc, <- app_assoc|]. split; [exact Hsame|].
    intros a _. rewrite (Hall s eq_refl) in Hf.
    unfold foldedEvents in Hf. cbn in Hf. rewrite !omap_app in Hf. cbn in Hf.
    rewrite !app_nil_r in Hf.
    rewrite omap_app. cbn. repeat case_match; try discriminate.
    all: by rewrite app_nil_r.
  - match goal with
    | |- context [reduce ?cb ?l ?a ?w1] => destruct (reduce cb l a w1) as [[s'|err'] w3']
    end; cbn in *; [discriminate|].
    split; [by rewrite Hc, <- app_assoc|]. split; [exact Hsame|].
    intros a Ha. discriminate.
Qed.

(** (C2) A fold over a non-empty list whose steps all return ends in an
    envelope taken from its last event: [entityID], [entityTypeName]
    and [requestID] copied, [typeName] the entity's type name, [kind]
    snapshot, [version] from the configuration, and
    [snapshottedEventCreatedAt] that event's [createdAt]; and so is the
    envelope of any single step that returns. *)
Theorem fold_step_envelope
    (pre : list EventEnvelope) (e : EventEnvelope) (acc : option EventEnvelope)
    (w : World P) (v : JsValue)
    (Hfold : foldValues config (pre ++ [e]) (snapshotValue acc) = Some v) :
  (exists s,
      (reduce (entityReducerCallback config now) (pre ++ [e]) acc w).1 = Normal (Some s) /\
      snapshotTakenFrom config s e /\ value s = v) /\
  (forall acc' e' (w1 w2 : World P) s,
      entityReducer config now acc' e' w1 = (Normal s, w2) ->
      snapshotTakenFrom config s e').
Proof.
  split.
  - destruct (reduce_normal config now pre e acc w v Hfold) as [Hr _].
    eexists. split; [exact Hr|]. cbn. unfold snapshotTakenFrom. cbn. repeat split.
  - intros acc' e' w1 w2 s Hstep.
    destruct (entityReducer_spec config now acc' e' w1) as (_ & _ & _ & Hr).
    rewrite Hstep in Hr. cbn in Hr.
    destruct (stepOutcome config e' (snapshotValue acc')) as [v'|err];
      [|discriminate].
    destruct Hr as [[= ->] _]. unfold snapshotTakenFrom. cbn. repeat split.
Qed.

(** (X17) When a reducer throws during the fold, [fetchEntitySnapshot]
    ends with that very error: the events after the offending one are not
    folded and no store call is made. *)
Theorem fetchEntitySnapshot_reducer_error
    (entityName : string) (entityID : UUID) (at_ : option Date) (w : World P)
    (snap : option EventEnvelope) (p1 p2 : P)
    (pre : list EventEnvelope) (ev : EventEnvelope) (post : list EventEnvelope)
    (v : JsValue) (f : Reducer) (err : JsError)
    (Hload : latestEntitySnapshot provider entityName entityID at_ (w_provider w)
             = (Normal snap, p1))
    (Hevents : forEntitySince provider entityName entityID (lastVisitedTime snap) p1
               = (Normal (pre ++ ev :: post), p2))
    (Hpre : foldValues config pre (snapshotValue snap) = Some v)
    (Hresolve : resolve config (typeName ev) = Some f)
    (Hthrow : f (value ev) v = Throw err) :
  let r := fetchEntitySnapshot config provider now entityName entityID at_ w in
  r.1 = Throw err /\
  storeCalls r.2 = storeCalls w /\
  foldedEvents r.2 = foldedEvents w ++ pre ++ [ev].
Proof.
  cbn zeta.
  destruct (fetchEntitySnapshot_throws entityName entityID at_ w snap p1 p2
              pre ev post v err Hload Hevents Hpre) as (Hr & _ & Hf).
  { rewrite (stepOutcome_resolved config ev v f Hresolve). exact Hthrow. }
  split; [exact Hr|]. split; [apply fetchEntitySnapshot_storeCalls | exact Hf].
Qed.

(** ** The write path *)

(** (X10) Whatever it is given, [calculateAndStoreEntitySnapshot] throws
    the [TypeError] of calling the member [loadLatestSnapshot], which the
    class does not have: it makes no provider call (no load, no store),
    folds no event and does not read the clock. *)
Theorem calculateAndStoreEntitySnapshot_throws_before_loading
    (entityName : string) (entityID : UUID) (pendingEnvelopes : list EventEnvelope)
    (w : World P) :
  let r := calculateAndStoreEntitySnapshot config provider now entityName entityID
             pendingEnvelopes w in
  r.1 = Throw (TypeError "this.loadLatestSnapshot is not a function") /\
  w_calls r.2 = w_calls w /\
  w_provider r.2 = w_provider w /\
  foldedEvents r.2 = foldedEvents w /\
  w_clock r.2 = w_clock w.
Proof.
  cbn zeta. unfold foldedEvents.
  unfold calculateAndStoreEntitySnapshot, loadLatestSnapshot, bind, debug, throw. cbn.
  rewrite !omap_app. cbn. rewrite !app_nil_r. auto.
Qed.

End Operations.

(** ** The in-memory provider keeps the provider's contract *)

Lemma InMemory_forEntitySince_after (entityName : string) (id : UUID) :
  forall t p evs p',
    forEntitySince InMemory.provider entityName id t p = (Normal evs, p') ->
    Forall (fun e => String.ltb t (createdAt e) = true) evs.
Proof.
  intros t p evs p' [= <- _].
  apply Forall_forall. intros e He.
  apply list_elem_of_In, List.filter_In in He as [_ He].
  apply andb_prop in He as [_ He]. exact He.
Qed.

(** ** The lookup of a reducer that is registered but cannot be called *)

Lemma reducerForEvent_unresolved {P : Type} (config : BoosterConfig) (eventName : string)
    (md : ReducerMetadata) (c : AnyClass) (w : World P) :
  readReducers config eventName = Some md ->
  class md = Some c ->
  lookupMember c (methodName md) = None ->
  (reducerForEvent config eventName w).1 = Normal (RValue JUndefined).
Proof.
  intros Hmd Hc Hm.
  unfold reducerForEvent, getProperty, getName, tryCatch, bind, debug, ret.
  rewrite Hmd, Hc, Hm. reflexivity.
Qed.

Lemma reducerForEvent_getter_throws {P : Type} (config : BoosterConfig) (eventName : string)
    (md : ReducerMetadata) (c : AnyClass) (e : JsError) (w : World P) :
  readReducers config eventName = Some md ->
  class md = Some c ->
  lookupMember c (methodName md) = Some (PThrowingGetter e) ->
  (reducerForEvent config eventName w).1
  = Throw (Error ("Couldn't load the Entity class " +:+ name c)).
Proof.
  intros Hmd Hc Hm.
  unfold reducerForEvent, getProperty, getName, tryCatch, bind, debug, ret, throw.
  rewrite Hmd, Hc, Hm. reflexivity.
Qed.

(** (C9) The registry entry "Renamed" names a method its class does not
    have.  The lookup does not fail: it returns [undefined]; what the
    caller of [fetchEntitySnapshot] gets is the [TypeError] of calling
    it, and the [Error] of the lookup's [catch] is not raised. *)
Theorem reducerForEvent_missing_method :
  (reducerForEvent Counter.config "Renamed" (InMemory.world [])).1
  = Normal (RValue JUndefined) /\
  (Counter.fetch [Counter.renamed] None).1
  = Throw (TypeError "this.reducerForEvent(...) is not a function") /\
  (Counter.fetch [Counter.renamed] None).1
  <> Throw (Error "Couldn't load the Entity class Counter").
Proof.
  split; [|split].
  - apply (reducerForEvent_unresolved Counter.config "Renamed"
             {| class := Some Counter.Counter; methodName := "reduceRenamed" |}
             Counter.Counter);
      vm_compute; reflexivity.
  - vm_compute. reflexivity.
  - vm_compute. discriminate.
Qed.

(** ** Instances on the counter *)

(** The cursor is the one of [snapshot5]; [added5] is not folded again. *)
Lemma fetchEntitySnapshot_cursor_witness :
  let p := [Counter.added5; Counter.snapshot5; Counter.added7] in
  let r := Counter.fetch p None in
  w_calls r.2 = [CallLatestEntitySnapshot "Counter" "c-1" None;
                 CallForEntitySince "Counter" "c-1" "2021-01-01T00:00:00.000Z"] /\
  foldedEvents r.2 = [Counter.added7].
Proof.
  cbv zeta.
  destruct (fetchEntitySnapshot_cursor Counter.config InMemory.provider Counter.now
              "Counter" "c-1" None
              (InMemory.world [Counter.added5; Counter.snapshot5; Counter.added7])
              (Some Counter.snapshot5)
              [Counter.added5; Counter.snapshot5; Counter.added7]
              ltac:(vm_compute; reflexivity)
              (InMemory_forEntitySince_after "Counter" "c-1"))
    as (Hcalls & _ & _ & _ & _).
  split; [exact Hcalls | vm_compute; reflexivity].
Defined.

Lemma fetchEntitySnapshot_nothing_is_null_witness :
  (Counter.fetch [] None).1 = Normal None.
Proof.
  apply (fetchEntitySnapshot_nothing_is_null Counter.config InMemory.provider Counter.now
           "Counter" "c-1" None (InMemory.world []) [] []);
    vm_compute; reflexivity.
Defined.

Lemma fetchEntitySnapshot_unregistered_witness :
  let r := Counter.fetch [Counter.added5; Counter.unknown; Counter.added7] None in
  r.1 = Throw (InvalidParameterError "No reducer registered for event Unknown") /\
  storeCalls r.2 = [] /\
  w_provider r.2 = [Counter.added5; Counter.unknown; Counter.added7] /\
  foldedEvents r.2 = [Counter.added5; Counter.unknown].
Proof.
  apply (fetchEntitySnapshot_unregistered Counter.config InMemory.provider Counter.now
           "Counter" "c-1" None
           (InMemory.world [Counter.added5; Counter.unknown; Counter.added7])
           None
           [Counter.added5; Counter.unknown; Counter.added7]
           [Counter.added5; Counter.unknown; Counter.added7]
           [Counter.added5] Counter.unknown [Counter.added7] (JNum 5));
    try (vm_compute; reflexivity).
  intros H. repeat (destruct H as [H|H]; [discriminate|]). exact H.
Defined.

(** An event of type "constructor", which nobody registered, after
    [added5]: the call throws a TypeError. *)
Lemma fetchEntitySnapshot_inherited_name_witness :
  let r := Counter.fetch [Counter.added5; Counter.inherits] None in
  (exists message, r.1 = Throw (TypeError message)) /\
  storeCalls r.2 = [] /\
  foldedEvents r.2 = [Counter.added5; Counter.inherits].
Proof.
  apply (fetchEntitySnapshot_inherited_name Counter.config InMemory.provider Counter.now
           "Counter" "c-1" None
           (InMemory.world [Counter.added5; Counter.inherits])
           None
           [Counter.added5; Counter.inherits]
           [Counter.added5; Counter.inherits]
           [Counter.added5] Counter.inherits [] (JNum 5));
    try (vm_compute; reflexivity).
  left. reflexivity.
Defined.

(** [added7] was created after the bound given as [at], and is folded
    all the same; the result is the one of the call without [at]. *)
Lemma fetchEntitySnapshot_at_selects_base_only_witness :
  let p := [Counter.added5; Counter.snapshot5; Counter.added7] in
  let at_ := Some "2021-01-15T00:00:00.000Z" in
  String.ltb "2021-01-15T00:00:00.000Z" (createdAt Counter.added7) = true /\
  (Counter.fetch p at_).1 = (Counter.fetch p None).1 /\
  foldedEvents (Counter.fetch p at_).2 = [Counter.added7] /\
  w_calls (Counter.fetch p at_).2
  = [CallLatestEntitySnapshot "Counter" "c-1" at_;
     CallForEntitySince "Counter" "c-1" "2021-01-01T00:00:00.000Z"].
Proof.
  cbv zeta.
  destruct (fetchEntitySnapshot_at_selects_base_only Counter.config InMemory.provider
              Counter.now "Counter" "c-1" (Some "2021-01-15T00:00:00.000Z") None
              (InMemory.world [Counter.added5; Counter.snapshot5; Counter.added7])
              (Some Counter.snapshot5)
              [Counter.added5; Counter.snapshot5; Counter.added7]
              [Counter.added5; Counter.snapshot5; Counter.added7]
              [Counter.added7]
              ltac:(vm_compute; reflexivity)
              ltac:(vm_compute; reflexivity)
              ltac:(vm_compute; reflexivity))
    as (Hcalls & Hsame & Hfolded).
  split; [vm_compute; reflexivity|].
  split; [exact Hsame|].
  split; [|exact Hcalls].
  apply (Hfolded (Some (snapshotOf Counter.config Counter.added7 (JNum 12)
                          "2022-06-01T12:00:00.000Z"))).
  vm_compute. reflexivity.
Defined.

Lemma fold_step_envelope_witness :
  exists s,
    (reduce (entityReducerCallback Counter.config Counter.now)
            [Counter.added5; Counter.added7] None (InMemory.world [])).1
    = Normal (Some s) /\
    snapshotTakenFrom Counter.config s Counter.added7 /\
    value s = JNum 12.
Proof.
  apply (fold_step_envelope Counter.config Counter.now [Counter.added5] Counter.added7
           None (InMemory.world []) (JNum 12)).
  vm_compute. reflexivity.
Defined.

(** [broken] throws after [added5] was folded: [added7] is not folded,
    and nothing is stored. *)
Lemma fetchEntitySnapshot_reducer_error_witness :
  let r := Counter.fetch [Counter.added5; Counter.broken; Counter.added7] None in
  r.1 = Throw (Thrown (JStr "boom")) /\
  storeCalls r.2 = [] /\
  foldedEvents r.2 = [Counter.added5; Counter.broken].
Proof.
  apply (fetchEntitySnapshot_reducer_error Counter.config InMemory.provider Counter.now
           "Counter" "c-1" None
           (InMemory.world [Counter.added5; Counter.broken; Counter.added7])
           None
           [Counter.added5; Counter.broken; Counter.added7]
           [Counter.added5; Counter.broken; Counter.added7]
           [Counter.added5] Counter.broken [Counter.added7]
           (JNum 5) Counter.reduceBroken (Thrown (JStr "boom")));
    vm_compute; reflexivity.
Defined.

(** ** The write path on the counter *)

(** (C3) With an empty list and a snapshot stored, the call returns no
    snapshot: it throws the [TypeError] of the missing member
    [loadLatestSnapshot] before any provider call. *)
Theorem calculateAndStoreEntitySnapshot_empty_throws :
  let p := [Counter.added5; Counter.snapshot5] in
  let r := Counter.calculateAndStore p [] in
  (latestEntitySnapshot InMemory.provider "Counter" "c-1" None p).1
  = Normal (Some Counter.snapshot5) /\
  r.1 = Throw (TypeError "this.loadLatestSnapshot is not a function") /\
  r.1 <> Normal (Some Counter.snapshot5) /\
  w_calls r.2 = [].
Proof.
  cbv zeta. repeat split; try (vm_compute; reflexivity).
  vm_compute. discriminate.
Qed.


(** (C5) An event of type "constructor", a name nobody registered: the
    registry read finds the member every object inherits under that
    name, the lookup does not throw its [InvalidParameterError], and the
    caller of [fetchEntitySnapshot] gets a [TypeError]. *)
Theorem fetchEntitySnapshot_unregistered_inherited_name :
  let r := Counter.fetch [Counter.inherits] None in
  reducers Counter.config !! typeName Counter.inherits = None /\
  (exists message, r.1 = Throw (TypeError message)) /\
  r.1 <> Throw (InvalidParameterError "No reducer registered for event constructor") /\
  storeCalls r.2 = [].
Proof.
  cbv zeta. split; [vm_compute; reflexivity|]. split; [|split].
  - eexists. vm_compute. reflexivity.
  - vm_compute. discriminate.
  - vm_compute. reflexivity.
Qed.

(** (C10) With one pending event whose reducer returns, and a snapshot
    stored, the call returns no envelope and stores nothing: it throws
    the [TypeError] of the missing member [loadLatestSnapshot]. *)
Theorem calculateAndStoreEntitySnapshot_nonempty_throws :
  let p := [Counter.added5; Counter.snapshot5] in
  let r := Counter.calculateAndStore p [Counter.cleared] in
  foldValues Counter.config [Counter.cleared] (JNum 5) = Some JNull /\
  r.1 = Throw (TypeError "this.loadLatestSnapshot is not a function") /\
  storeCalls r.2 = [] /\
  w_provider r.2 = p.
Proof.
  cbv zeta. repeat split; vm_compute; reflexivity.
Qed.

(** ** More on the fold *)

Section FoldFacts.
Context {P : Type}.
Variable config : BoosterConfig.
Variable now : nat -> string.

(** [reduce] over a concatenation runs the first list, then the second
    from where the first ended. *)
Lemma reduce_app {A B} (callback : B -> A -> M P B) (l1 l2 : list A) :
  forall (acc : B) (w : World P),
    reduce callback (l1 ++ l2) acc w
    = match reduce callback l1 acc w with
      | (Normal a, w1) => reduce callback l2 a w1
      | (Throw e, w1) => (Throw e, w1)
      end.
Proof.
  induction l1 as [|x l1 IH]; intros acc w; cbn; [reflexivity|].
  unfold bind. destruct (callback acc x w) as [[a|e] w1]; [apply IH | reflexivity].
Qed.

(** A fold that completes has read the clock once per event. *)
Lemma reduce_clock (l : list EventEnvelope) :
  forall (acc a : option EventEnvelope) (w w1 : World P),
    reduce (entityReducerCallback config now) l acc w = (Normal a, w1) ->
    w_clock w1 = (w_clock w + length l)%nat.
Proof.
  induction l as [|e rest IH]; intros acc a w w1; cbn.
  - intros [= _ <-]. lia.
  - unfold bind. rewrite entityReducerCallback_eq.
    destruct (entityReducer_spec config now acc e w) as (_ & _ & _ & Hr).
    destruct (entityReducer config now acc e w) as [[s|err] w0]; cbn in *; [|discriminate].
    destruct (stepOutcome config e (snapshotValue acc)) as [v|err]; [|discriminate].
    destruct Hr as [_ Hk]. intros Hrest. apply IH in Hrest. lia.
Qed.

(** A fold writes one error entry when it throws, carrying what it
    throws, and none when it completes. *)
Lemma entityReducer_errors (acc : option EventEnvelope) (e : EventEnvelope) (w : World P) :
  let r := entityReducer config now acc e w in
  loggedErrors r.2
  = loggedErrors w ++ match r.1 with
                      | Normal _ => []
                      | Throw err => [reducerErrorEntry err]
                      end.
Proof.
  unfold entityReducer, reducerForEvent, getProperty, getName, call, tryCatch, bind,
    debug, error, throw, ret, newDateISOString, loggedErrors, reducerErrorEntry.
  cbn.
  destruct (readReducers config (typeName e)) as [md|]; cbn.
  - destruct (class md) as [c|]; cbn.
    + destruct (lookupMember c (methodName md)) as [[f|v|err]|]; cbn.
      * destruct (f (value e) _) as [v|err]; cbn;
          rewrite ?omap_app; cbn; rewrite ?app_nil_r; auto.
      * rewrite ?omap_app; cbn; rewrite ?app_nil_r; auto.
      * rewrite ?omap_app; cbn; rewrite ?app_nil_r; auto.
      * rewrite ?omap_app; cbn; rewrite ?app_nil_r; auto.
    + rewrite ?omap_app; cbn; rewrite ?app_nil_r; auto.
  - rewrite ?omap_app; cbn; rewrite ?app_nil_r; auto.
Qed.

Lemma reduce_errors (l : list EventEnvelope) :
  forall (acc : option EventEnvelope) (w : World P),
    let r := reduce (entityReducerCallback config now) l acc w in
    loggedErrors r.2
    = loggedErrors w ++ match r.1 with
                        | Normal _ => []
                        | Throw err => [reducerErrorEntry err]
                        end.
Proof.
  induction l as [|e rest IH]; intros acc w; cbn.
  - by rewrite app_nil_r.
  - unfold bind. rewrite entityReducerCallback_eq.
    pose proof (entityReducer_errors acc e w) as He.
    destruct (entityReducer config now acc e w) as [[s|err] w0]; cbn in *.
    + rewrite app_nil_r in He. rewrite <- He. apply IH.
    + exact He.
Qed.

End FoldFacts.

(** ** What the read path returns *)

Section Results.
Context {P : Type}.
Variable config : BoosterConfig.
Variable provider : ProviderLibrary P.
Variable now : nat -> string.

(** The read path, once the provider has answered: the loaded snapshot
    when nothing is pending, the outcome of the fold otherwise. *)
Lemma fetchEntitySnapshot_result
    (entityName : string) (entityID : UUID) (at_ : option Date) (w : World P)
    (snap : option EventEnvelope) (p1 p2 : P) (evs : list EventEnvelope) :
  latestEntitySnapshot provider entityName entityID at_ (w_provider w) = (Normal snap, p1) ->
  forEntitySince provider entityName entityID (lastVisitedTime snap) p1 = (Normal evs, p2) ->
  let r := fetchEntitySnapshot config provider now entityName entityID at_ w in
  r.1 = (if (length evs <=? 0)%nat then Normal snap
         else (reduce (entityReducerCallback config now) evs snap w).1) /\
  w_provider r.2 = p2 /\
  loggedErrors r.2 = loggedErrors w ++ match r.1 with
                                       | Normal _ => []
                                       | Throw err => [reducerErrorEntry err]
                                       end.
Proof.
  intros Hload Hev. cbn zeta. unfold loggedErrors.
  fetch_unfold. rewrite Hload. cbn. rewrite Hev. cbn.
  destruct (length evs <=? 0)%nat; cbn.
  { rewrite !omap_app. cbn. rewrite !app_nil_r. auto. }
  match goal with
  | |- context [reduce ?cb ?l ?a ?w0] =>
      pose proof (reduce_clock_only config now l a w0 w eq_refl) as Hsame;
      pose proof (reduce_errors config now l a w0) as Herr;
      destruct (reduce_frame config now l a w0) as (Hp & _);
      destruct (reduce cb l a w0) as [[s|err] w3]
  end; cbn in *; unfold loggedErrors in Herr; cbn in Herr;
    rewrite !omap_app in Herr; cbn in Herr; rewrite !app_nil_r in Herr.
  - rewrite omap_app. cbn. rewrite !app_nil_r. auto.
  - auto.
Qed.

End Results.

(** ** Provider failures *)

Section ProviderErrors.
Context {P : Type}.
Variable config : BoosterConfig.
Variable provider : ProviderLibrary P.
Variable now : nat -> string.

(** (X1) When the snapshot load is rejected, [fetchEntitySnapshot]
    throws that error as it is: the event stream is not asked for,
    nothing is folded and nothing is written to the error log. *)
Theorem fetchEntitySnapshot_load_error
    (entityName : string) (entityID : UUID) (at_ : option Date) (w : World P)
    (err : JsError) (p1 : P)
    (Hload : latestEntitySnapshot provider entityName entityID at_ (w_provider w)
             = (Throw err, p1)) :
  let r := fetchEntitySnapshot config provider now entityName entityID at_ w in
  r.1 = Throw err /\
  w_calls r.2 = w_calls w ++ [CallLatestEntitySnapshot entityName entityID at_] /\
  w_provider r.2 = p1 /\
  foldedEvents r.2 = foldedEvents w /\
  loggedErrors r.2 = loggedErrors w /\
  w_clock r.2 = w_clock w.
Proof.
  cbn zeta. unfold foldedEvents, loggedErrors. fetch_unfold. rewrite Hload. cbn.
  rewrite !omap_app. cbn. rewrite !app_nil_r. auto 10.
Qed.

(** (X2) When the event-stream load is rejected, [fetchEntitySnapshot]
    throws that error as it is, after its two provider calls: nothing is
    folded and nothing is written to the error log. *)
Theorem fetchEntitySnapshot_events_error
    (entityName : string) (entityID : UUID) (at_ : option Date) (w : World P)
    (snap : option EventEnvelope) (err : JsError) (p1 p2 : P)
    (Hload : latestEntitySnapshot provider entityName entityID at_ (w_provider w)
             = (Normal snap, p1))
    (Hevents : forEntitySince provider entityName entityID (lastVisitedTime snap) p1
               = (Throw err, p2)) :
  let r := fetchEntitySnapshot config provider now entityName entityID at_ w in
  r.1 = Throw err /\
  w_calls r.2 = w_calls w ++ [CallLatestEntitySnapshot entityName entityID at_;
                              CallForEntitySince entityName entityID (lastVisitedTime snap)] /\
  w_provider r.2 = p2 /\
  foldedEvents r.2 = foldedEvents w /\
  loggedErrors r.2 = loggedErrors w /\
  w_clock r.2 = w_clock w.
Proof.
  cbn zeta. unfold foldedEvents, loggedErrors. fetch_unfold.
  rewrite Hload. cbn. rewrite Hevents. cbn.
  rewrite !omap_app. cbn. rewrite !app_nil_r, <- app_assoc. auto 10.
Qed.

End ProviderErrors.

(** ** Reading and resuming *)

Section ReadWrite.
Context {P : Type}.
Variable config : BoosterConfig.
Variable provider : ProviderLibrary P.
Variable now : nat -> string.

(** (X5) With no event after the cursor, [fetchEntitySnapshot] returns
    the loaded snapshot as it is: no envelope is built (the clock is not
    read) and nothing is folded. *)
Theorem fetchEntitySnapshot_no_pending
    (entityName : string) (entityID : UUID) (at_ : option Date) (w : World P)
    (snap : option EventEnvelope) (p1 p2 : P)
    (Hload : latestEntitySnapshot provider entityName entityID at_ (w_provider w)
             = (Normal snap, p1))
    (Hevents : forEntitySince provider entityName entityID (lastVisitedTime snap) p1
               = (Normal [], p2)) :
  let r := fetchEntitySnapshot config provider now entityName entityID at_ w in
  r.1 = Normal snap /\
  w_clock r.2 = w_clock w /\
  foldedEvents r.2 = foldedEvents w /\
  w_provider r.2 = p2.
Proof.
  cbn zeta. unfold foldedEvents. fetch_unfold.
  rewrite Hload. cbn. rewrite Hevents. cbn.
  rewrite !omap_app. cbn. rewrite !app_nil_r. auto.
Qed.

(** (X6) With pending events whose steps all return,
    [fetchEntitySnapshot] returns the envelope built from the last
    pending event: its value is the chain of the reducers' results from
    the loaded snapshot's value, and its [createdAt] is the clock reading
    taken at the last step. *)
Theorem fetchEntitySnapshot_folds_pending
    (entityName : string) (entityID : UUID) (at_ : option Date) (w : World P)
    (snap : option EventEnvelope) (p1 p2 : P)
    (pre : list EventEnvelope) (e : EventEnvelope) (v : JsValue)
    (Hload : latestEntitySnapshot provider entityName entityID at_ (w_provider w)
             = (Normal snap, p1))
    (Hevents : forEntitySince provider entityName entityID (lastVisitedTime snap) p1
               = (Normal (pre ++ [e]), p2))
    (Hfold : foldValues config (pre ++ [e]) (snapshotValue snap) = Some v) :
  let r := fetchEntitySnapshot config provider now entityName entityID at_ w in
  r.1 = Normal (Some (snapshotOf config e v (now (w_clock w + length pre)%nat))) /\
  w_provider r.2 = p2 /\
  loggedErrors r.2 = loggedErrors w.
Proof.
  cbn zeta.
  destruct (fetchEntitySnapshot_result config provider now entityName entityID at_ w
              snap p1 p2 (pre ++ [e]) Hload Hevents) as (Hr & Hp & He).
  rewrite length_snoc_leb in Hr.
  destruct (reduce_normal config now pre e snap w v Hfold) as [Hn _].
  rewrite Hn in Hr. rewrite Hr in He. rewrite app_nil_r in He. auto.
Qed.

(** (X8) Resuming from a snapshot gives what replaying everything gives.
    Take a call that folds [pre ++ post] from the snapshot [snap], and a
    call, made [length pre] clock readings later, that loads the outcome
    of folding [pre] from [snap] and folds [post]: both return the same
    envelope or throw the same error. *)
Theorem fetchEntitySnapshot_resumes
    (entityName : string) (entityID : UUID) (at_ at' : option Date) (w w' : World P)
    (snap a : option EventEnvelope) (p1 p2 q1 q2 : P) (pre post : list EventEnvelope)
    (Hload : latestEntitySnapshot provider entityName entityID at_ (w_provider w)
             = (Normal snap, p1))
    (Hevents : forEntitySince provider entityName entityID (lastVisitedTime snap) p1
               = (Normal (pre ++ post), p2))
    (Hpre : (reduce (entityReducerCallback config now) pre snap w).1 = Normal a)
    (Hclock : w_clock w' = (w_clock w + length pre)%nat)
    (Hload' : latestEntitySnapshot provider entityName entityID at' (w_provider w')
              = (Normal a, q1))
    (Hevents' : forEntitySince provider entityName entityID (lastVisitedTime a) q1
                = (Normal post, q2)) :
  (fetchEntitySnapshot config provider now entityName entityID at_ w).1
  = (fetchEntitySnapshot config provider now entityName entityID at' w').1.
Proof.
  destruct (fetchEntitySnapshot_result config provider now entityName entityID at_ w
              snap p1 p2 (pre ++ post) Hload Hevents) as (Hr & _).
  destruct (fetchEntitySnapshot_result config provider now entityName entityID at' w'
              a q1 q2 post Hload' Hevents') as (Hr' & _).
  cbn zeta in *. rewrite Hr, Hr'. clear Hr Hr'.
  assert (Hall : (reduce (entityReducerCallback config now) (pre ++ post) snap w).1
                 = (reduce (entityReducerCallback config now) post a w').1).
  { rewrite reduce_app.
    destruct (reduce (entityReducerCallback config now) pre snap w) as [[a0|err] w1] eqn:E;
      cbn in Hpre; [|discriminate].
    injection Hpre as ->.
    apply reduce_clock_only. apply reduce_clock in E. congruence. }
  destruct post as [|e post].
  - cbn [length Nat.leb]. rewrite app_nil_r in *. cbn in Hall.
    destruct pre as [|e pre]; cbn [length Nat.leb]; [|exact Hall].
    cbn in Hpre. congruence.
  - rewrite length_snoc_leb. cbn [length Nat.leb]. exact Hall.
Qed.

(** (X9) The fold takes nothing but the value from the snapshot it
    starts from: over a non-empty list, two starting snapshots with the
    same value (null standing for no snapshot) give the same outcome. *)
Theorem fold_reads_only_the_value
    (l : list EventEnvelope) (acc acc' : option EventEnvelope) (w : World P)
    (Hnonempty : l <> [])
    (Hvalue : snapshotValue acc = snapshotValue acc') :
  (reduce (entityReducerCallback config now) l acc w).1
  = (reduce (entityReducerCallback config now) l acc' w).1.
Proof.
  destruct l as [|e rest]; [done|]. cbn. unfold bind.
  rewrite !entityReducerCallback_eq.
  destruct (entityReducer_spec config now acc e w) as (_ & _ & _ & Hr).
  destruct (entityReducer_spec config now acc' e w) as (_ & _ & _ & Hr').
  rewrite <- Hvalue in Hr'.
  destruct (stepOutcome config e (snapshotValue acc)) as [v|err].
  - destruct Hr as [Hr Hk], Hr' as [Hr' Hk'].
    destruct (entityReducer config now acc e w) as [[s|?] w1]; cbn in *; [|discriminate].
    destruct (entityReducer config now acc' e w) as [[s'|?] w1']; cbn in *; [|discriminate].
    injection Hr as ->. injection Hr' as ->.
    apply reduce_clock_only. congruence.
  - destruct (entityReducer config now acc e w) as [[s|?] w1]; cbn in *; [discriminate|].
    destruct (entityReducer config now acc' e w) as [[s'|?] w1']; cbn in *; [discriminate|].
    congruence.
Qed.

(** (X11) Once the provider has answered, [fetchEntitySnapshot] writes
    to the error log exactly when it throws: one entry, carrying the
    error it throws. *)
Theorem fetchEntitySnapshot_logs_what_it_throws
    (entityName : string) (entityID : UUID) (at_ : option Date) (w : World P)
    (snap : option EventEnvelope) (p1 p2 : P) (evs : list EventEnvelope)
    (Hload : latestEntitySnapshot provider entityName entityID at_ (w_provider w)
             = (Normal snap, p1))
    (Hevents : forEntitySince provider entityName entityID (lastVisitedTime snap) p1
               = (Normal evs, p2)) :
  let r := fetchEntitySnapshot config provider now entityName entityID at_ w in
  loggedErrors r.2 = loggedErrors w ++ match r.1 with
                                       | Normal _ => []
                                       | Throw err => [reducerErrorEntry err]
                                       end.
Proof.
  apply (fetchEntitySnapshot_result config provider now entityName entityID at_ w
           snap p1 p2 evs Hload Hevents).
Qed.

End ReadWrite.

(** ** Registry entries that cannot be used *)

Section UnusableReducers.
Context {P : Type}.
Variable config : BoosterConfig.
Variable provider : ProviderLibrary P.
Variable now : nat -> string.

Lemma stepOutcome_not_callable (e : EventEnvelope) (v : JsValue) (md : ReducerMetadata)
    (c : AnyClass) :
  readReducers config (typeName e) = Some md ->
  class md = Some c ->
  (lookupMember c (methodName md) = None
   \/ exists d, lookupMember c (methodName md) = Some (PData d)) ->
  stepOutcome config e v = Throw (TypeError "this.reducerForEvent(...) is not a function").
Proof.
  unfold stepOutcome. intros -> -> [-> | [d ->]]; reflexivity.
Qed.


(** (X12) When the fold reaches an event whose registry entry names a
    member that a read of the class does not find anywhere along its
    prototype chain, or finds as something that is not a function,
    [fetchEntitySnapshot] throws the [TypeError] of the failed call: the
    events before it were folded, those after it are not, and the error
    is logged once. *)
Theorem fetchEntitySnapshot_not_callable
    (entityName : string) (entityID : UUID) (at_ : option Date) (w : World P)
    (snap : option EventEnvelope) (p1 p2 : P)
    (pre : list EventEnvelope) (ev : EventEnvelope) (post : list EventEnvelope)
    (v : JsValue) (md : ReducerMetadata) (c : AnyClass)
    (Hload : latestEntitySnapshot provider entityName entityID at_ (w_provider w)
             = (Normal snap, p1))
    (Hevents : forEntitySince provider entityName entityID (lastVisitedTime snap) p1
               = (Normal (pre ++ ev :: post), p2))
    (Hpre : foldValues config pre (snapshotValue snap) = Some v)
    (Hentry : readReducers config (typeName ev) = Some md)
    (Hclass : class md = Some c)
    (Hmember : lookupMember c (methodName md) = None
               \/ exists d, lookupMember c (methodName md) = Some (PData d)) :
  let r := fetchEntitySnapshot config provider now entityName entityID at_ w in
  let err := TypeError "this.reducerForEvent(...) is not a function" in
  r.1 = Throw err /\
  foldedEvents r.2 = foldedEvents w ++ pre ++ [ev] /\
  loggedErrors r.2 = loggedErrors w ++ [reducerErrorEntry err].
Proof.
  cbn zeta.
  destruct (fetchEntitySnapshot_throws config provider now entityName entityID at_ w
              snap p1 p2 pre ev post v _ Hload Hevents Hpre
              (stepOutcome_not_callable ev v md c Hentry Hclass Hmember)) as (Hr & _ & Hf).
  destruct (fetchEntitySnapshot_result config provider now entityName entityID at_ w
              snap p1 p2 _ Hload Hevents) as (_ & _ & He).
  cbn zeta in He. rewrite Hr in He. auto.
Qed.


End UnusableReducers.

(** ** More instances on the sample applications *)

Lemma fetchEntitySnapshot_load_error_witness :
  let r := fetchEntitySnapshot Counter.config (Flaky.provider true false false) Counter.now
             "Counter" "c-1" None (InMemory.world [Counter.added5]) in
  r.1 = Throw Flaky.down /\
  w_calls r.2 = [CallLatestEntitySnapshot "Counter" "c-1" None] /\
  w_provider r.2 = [Counter.added5] /\
  foldedEvents r.2 = [] /\
  loggedErrors r.2 = [] /\
  w_clock r.2 = 0%nat.
Proof.
  apply (fetchEntitySnapshot_load_error Counter.config (Flaky.provider true false false)
           Counter.now "Counter" "c-1" None (InMemory.world [Counter.added5])
           Flaky.down [Counter.added5]).
  vm_compute. reflexivity.
Defined.

Lemma fetchEntitySnapshot_events_error_witness :
  let r := fetchEntitySnapshot Counter.config (Flaky.provider false true false) Counter.now
             "Counter" "c-1" None (InMemory.world [Counter.added5]) in
  r.1 = Throw Flaky.down /\
  w_calls r.2 = [CallLatestEntitySnapshot "Counter" "c-1" None;
                 CallForEntitySince "Counter" "c-1" originOfTime] /\
  w_provider r.2 = [Counter.added5] /\
  foldedEvents r.2 = [] /\
  loggedErrors r.2 = [] /\
  w_clock r.2 = 0%nat.
Proof.
  apply (fetchEntitySnapshot_events_error Counter.config (Flaky.provider false true false)
           Counter.now "Counter" "c-1" None (InMemory.world [Counter.added5])
           None Flaky.down [Counter.added5] [Counter.added5]);
    vm_compute; reflexivity.
Defined.

Lemma fetchEntitySnapshot_no_pending_witness :
  let p := [Counter.added5; Counter.snapshot5] in
  let r := Counter.fetch p None in
  r.1 = Normal (Some Counter.snapshot5) /\
  w_clock r.2 = 0%nat /\
  foldedEvents r.2 = [] /\
  w_provider r.2 = p.
Proof.
  apply (fetchEntitySnapshot_no_pending Counter.config InMemory.provider Counter.now
           "Counter" "c-1" None (InMemory.world [Counter.added5; Counter.snapshot5])
           (Some Counter.snapshot5)
           [Counter.added5; Counter.snapshot5] [Counter.added5; Counter.snapshot5]);
    vm_compute; reflexivity.
Defined.

Lemma fetchEntitySnapshot_folds_pending_witness :
  let p := [Counter.added5; Counter.snapshot5; Counter.added7] in
  let r := Counter.fetch p None in
  r.1 = Normal (Some (snapshotOf Counter.config Counter.added7 (JNum 12)
                        "2022-06-01T12:00:00.000Z")) /\
  w_provider r.2 = p /\
  loggedErrors r.2 = [].
Proof.
  apply (fetchEntitySnapshot_folds_pending Counter.config InMemory.provider Counter.now
           "Counter" "c-1" None
           (InMemory.world [Counter.added5; Counter.snapshot5; Counter.added7])
           (Some Counter.snapshot5)
           [Counter.added5; Counter.snapshot5; Counter.added7]
           [Counter.added5; Counter.snapshot5; Counter.added7]
           [] Counter.added7 (JNum 12));
    vm_compute; reflexivity.
Defined.

(** Replaying [added5; added7] and resuming after [added5] from its
    snapshot give the same envelope. *)
Lemma fetchEntitySnapshot_resumes_witness :
  let s5 := snapshotOf Counter.config Counter.added5 (JNum 5) (Counter.now 0%nat) in
  (fetchEntitySnapshot Counter.config InMemory.provider Counter.now "Counter" "c-1" None
     (InMemory.world [Counter.added5; Counter.added7])).1
  = (fetchEntitySnapshot Counter.config InMemory.provider Counter.now "Counter" "c-1" None
       (mkWorld [Counter.added5; s5; Counter.added7] [] [] 1)).1.
Proof.
  apply (fetchEntitySnapshot_resumes Counter.config InMemory.provider Counter.now
           "Counter" "c-1" None None
           (InMemory.world [Counter.added5; Counter.added7])
           (mkWorld [Counter.added5;
                     snapshotOf Counter.config Counter.added5 (JNum 5) (Counter.now 0%nat);
                     Counter.added7] [] [] 1)
           None
           (Some (snapshotOf Counter.config Counter.added5 (JNum 5) (Counter.now 0%nat)))
           [Counter.added5; Counter.added7] [Counter.added5; Counter.added7]
           [Counter.added5;
            snapshotOf Counter.config Counter.added5 (JNum 5) (Counter.now 0%nat);
            Counter.added7]
           [Counter.added5;
            snapshotOf Counter.config Counter.added5 (JNum 5) (Counter.now 0%nat);
            Counter.added7]
           [Counter.added5] [Counter.added7]);
    vm_compute; reflexivity.
Defined.

(** A snapshot and another with the same value but no cursor and another
    request: the fold of [added7] cannot tell them apart. *)
Lemma fold_reads_only_the_value_witness :
  (reduce (entityReducerCallback Counter.config Counter.now) [Counter.added7]
          (Some Counter.snapshot5) (InMemory.world [])).1
  = (reduce (entityReducerCallback Counter.config Counter.now) [Counter.added7]
            (Some Counter.snapshotNoCursor) (InMemory.world [])).1.
Proof.
  apply (fold_reads_only_the_value Counter.config Counter.now [Counter.added7]
           (Some Counter.snapshot5) (Some Counter.snapshotNoCursor) (InMemory.world [])).
  - discriminate.
  - reflexivity.
Defined.

Lemma fetchEntitySnapshot_logs_what_it_throws_witness :
  let r := Counter.fetch [Counter.added5; Counter.broken] None in
  r.1 = Throw (Thrown (JStr "boom")) /\
  loggedErrors r.2 = [reducerErrorEntry (Thrown (JStr "boom"))].
Proof.
  cbv zeta. split; [vm_compute; reflexivity|].
  pose proof (fetchEntitySnapshot_logs_what_it_throws Counter.config InMemory.provider
                Counter.now "Counter" "c-1" None
                (InMemory.world [Counter.added5; Counter.broken])
                None
                [Counter.added5; Counter.broken] [Counter.added5; Counter.broken]
                [Counter.added5; Counter.broken]
                ltac:(vm_compute; reflexivity) ltac:(vm_compute; reflexivity)) as H.
  cbv zeta in H. unfold Counter.fetch. rewrite H. vm_compute. reflexivity.
Defined.

(** The entry "Labelled" names the static [label], a string. *)
Lemma fetchEntitySnapshot_not_callable_witness :
  let r := fetchEntitySnapshot Lazy.config InMemory.provider Counter.now "Lazy" "l-1" None
             (InMemory.world [Lazy.labelled]) in
  let err := TypeError "this.reducerForEvent(...) is not a function" in
  r.1 = Throw err /\
  foldedEvents r.2 = [Lazy.labelled] /\
  loggedErrors r.2 = [reducerErrorEntry err].
Proof.
  apply (fetchEntitySnapshot_not_callable Lazy.config InMemory.provider Counter.now
           "Lazy" "l-1" None (InMemory.world [Lazy.labelled]) None
           [Lazy.labelled] [Lazy.labelled] [] Lazy.labelled [] JNull
           {| class := Some Lazy.Lazy; methodName := "label" |} Lazy.Lazy).
  - vm_compute. reflexivity.
  - vm_compute. reflexivity.
  - reflexivity.
  - vm_compute. reflexivity.
  - reflexivity.
  - right. exists (JStr "lazy"). vm_compute. reflexivity.
Defined.

